(** * SERA dataset curation and stage pipeline: a shallow embedding

    The development follows three Python modules of the repository:

    - [sera/datagen/data/filter.py]  ([Module Filter]): [analyze_diff],
      [count_tokens] and the two filter modes of [main];
    - [sera/datagen/data/scale.py]   ([Module Scale]): [scale_repos],
      [scale_tokens] and [main];
    - [sera/main.py]                 ([Module Pipeline]): [Experiment].

    [Module Py] holds the fragment of Python the three modules rely on:
    exceptions, [str] methods, POSIX path helpers, binary64 floats and
    list indexing.  Definitions come first; the properties are at the
    end of the file. *)

From Stdlib Require Import ZArith QArith String Ascii List Bool Lia.
From Stdlib Require Import Permutation Sorted SpecFloat DecimalString.
From stdpp Require Import base option list gmap strings.

Local Open Scope string_scope.
Local Open Scope list_scope.
Local Open Scope Z_scope.

(* ===================================================================== *)
(** * Python primitives *)
(* ===================================================================== *)

Module Py.

(** ** Exceptions *)

Inductive exn :=
  | TypeError | ValueError | ZeroDivisionError | IndexError | KeyError
  | OverflowError | RuntimeError | FileExistsError | AttributeError | OSError
  | FileNotFoundError.

Inductive result (A : Type) :=
  | Ok (a : A)
  | Raise (e : exn).
Arguments Ok {A} a.
Arguments Raise {A} e.

#[global] Instance result_ret : MRet result := fun A a => Ok a.
#[global] Instance result_bind : MBind result := fun A B f m =>
  match m with
  | Ok a => f a
  | Raise e => Raise e
  end.

Definition is_ok {A} (r : result A) : bool :=
  match r with Ok _ => true | Raise _ => false end.

(** ** Strings

    A [str] is a sequence of code points; the model covers code points
    below 256, one [ascii] each. *)

(** [s.startswith(p)] *)
Definition startswith (s p : string) : bool := String.prefix p s.

(** [needle in hay] *)
Fixpoint contains (needle hay : string) : bool :=
  String.prefix needle hay ||
  match hay with
  | EmptyString => false
  | String _ hay' => contains needle hay'
  end.

(** [s.split(sep)] for a one-character separator. *)
Fixpoint split (sep : ascii) (s : string) : list string :=
  match s with
  | EmptyString => [EmptyString]
  | String c s' =>
      if Ascii.eqb c sep then EmptyString :: split sep s'
      else match split sep s' with
           | w :: ws => String c w :: ws
           | [] => [String c EmptyString]
           end
  end.

(** [sep.join(l)] *)
Fixpoint join (sep : string) (l : list string) : string :=
  match l with
  | [] => EmptyString
  | [w] => w
  | w :: ws => w +:+ sep +:+ join sep ws
  end.

(** [s[:-1]] *)
Fixpoint drop_last (s : string) : string :=
  match s with
  | EmptyString => EmptyString
  | String c EmptyString => EmptyString
  | String c s' => String c (drop_last s')
  end.

(** Line boundaries of [str.splitlines] among the code points below 256:
    LF, VT, FF, CR, FS, GS, RS and NEL. *)
Definition is_linebreak (c : ascii) : bool :=
  let n := nat_of_ascii c in
  ((10 <=? n) && (n <=? 13) || (28 <=? n) && (n <=? 30) || (n =? 133))%nat.

Definition CR : ascii := "013"%char.
Definition LF : ascii := "010"%char.

(** [s.splitlines()]: [cur] is the line read so far, in reverse; a CR
    followed by LF is one boundary; no empty last line is produced. *)
Fixpoint splitlines_from (cur : list ascii) (s : string) : list string :=
  match s with
  | EmptyString =>
      match cur with
      | [] => []
      | _ => [string_of_list_ascii (rev cur)]
      end
  | String c s' =>
      if is_linebreak c then
        string_of_list_ascii (rev cur) ::
        match s' with
        | String c' s'' =>
            if Ascii.eqb c CR && Ascii.eqb c' LF
            then splitlines_from [] s''
            else splitlines_from [] s'
        | EmptyString => []
        end
      else splitlines_from (c :: cur) s'
  end.

Definition splitlines (s : string) : list string := splitlines_from [] s.

(** ** POSIX paths ([os.path]) *)

Fixpoint str_take (n : nat) (s : string) : string :=
  match n, s with
  | S n', String c s' => String c (str_take n' s')
  | _, _ => EmptyString
  end.

Fixpoint str_drop (n : nat) (s : string) : string :=
  match n, s with
  | S n', String _ s' => str_drop n' s'
  | _, _ => s
  end.

Fixpoint rfind_from (c : ascii) (s : string) (i last : Z) : Z :=
  match s with
  | EmptyString => last
  | String a s' => rfind_from c s' (i + 1) (if Ascii.eqb a c then i else last)
  end.

(** [s.rfind(c)]: the last index of [c], or [-1]. *)
Definition rfind (c : ascii) (s : string) : Z := rfind_from c s 0 (-1).

Definition endswith_char (s : string) (c : ascii) : bool :=
  match rev (list_ascii_of_string s) with
  | a :: _ => Ascii.eqb a c
  | [] => false
  end.

Fixpoint drop_leading (c : ascii) (l : list ascii) : list ascii :=
  match l with
  | a :: l' => if Ascii.eqb a c then drop_leading c l' else l
  | [] => []
  end.

(** [s.rstrip('/')] *)
Definition rstrip_slash (s : string) : string :=
  string_of_list_ascii
    (rev (drop_leading "/"%char (rev (list_ascii_of_string s)))).

Definition all_char (c : ascii) (s : string) : bool :=
  forallb (fun a => Ascii.eqb a c) (list_ascii_of_string s).

(** [os.path.join(a, b)] *)
Definition path_join2 (a b : string) : string :=
  if startswith b "/" then b
  else if String.eqb a EmptyString || endswith_char a "/"%char then a +:+ b
  else a +:+ "/" +:+ b.

(** [os.path.join(a, p1, p2, ...)] *)
Definition path_join (a : string) (p : list string) : string :=
  fold_left path_join2 p a.

(** [os.path.dirname(p)] *)
Definition dirname (p : string) : string :=
  let i := Z.to_nat (rfind "/"%char p + 1) in
  let head := str_take i p in
  if negb (String.eqb head EmptyString) && negb (all_char "/"%char head)
  then rstrip_slash head
  else head.

(** [os.path.splitext(p)]: the extension starts at the last dot of the
    last component, unless only dots precede it there. *)
Definition splitext (p : string) : string * string :=
  let sepIndex := rfind "/"%char p in
  let dotIndex := rfind "."%char p in
  if sepIndex <? dotIndex then
    let lead := str_take (Z.to_nat (dotIndex - (sepIndex + 1)))
                  (str_drop (Z.to_nat (sepIndex + 1)) p) in
    if all_char "."%char lead then (p, EmptyString)
    else (str_take (Z.to_nat dotIndex) p, str_drop (Z.to_nat dotIndex) p)
  else (p, EmptyString).

(** [str(n)] for an [int]. *)
Definition str_of_int (n : Z) : string := NilZero.string_of_int (Z.to_int n).

(** ** Lists *)

(** [l[i]], negative indexes counting from the end. *)
Definition index {A} (l : list A) (i : Z) : result A :=
  let len := Z.of_nat (length l) in
  let j := if i <? 0 then len + i else i in
  if (0 <=? j) && (j <? len) then
    match nth_error l (Z.to_nat j) with
    | Some x => Ok x
    | None => Raise IndexError
    end
  else Raise IndexError.

(** [l[:n]]: a negative bound counts from the end. *)
Definition slice_to {A} (l : list A) (n : Z) : list A :=
  if n <? 0 then firstn (Z.to_nat (Z.of_nat (length l) + n)) l
  else firstn (Z.to_nat n) l.

(** ** Floats

    A [float] is an IEEE 754 binary64 value; the arithmetic is the one
    of the standard library's [SpecFloat], rounding to nearest even. *)

Definition float := spec_float.
Definition prec : Z := 53.
Definition emax : Z := 1024.

(** [float(z)] as performed when an [int] meets a [float] in arithmetic. *)
Definition float_of_int (z : Z) : result float :=
  match binary_normalize prec emax z 0 false with
  | S754_infinity _ => Raise OverflowError
  | f => Ok f
  end.

Definition fmul (x y : float) : float := SFmul prec emax x y.
Definition fdiv (x y : float) : float := SFdiv prec emax x y.

(** [int(x)]: truncation towards zero. *)
Definition int_of_float (x : float) : result Z :=
  match x with
  | S754_zero _ => Ok 0
  | S754_finite s m e => Ok (cond_Zopp s (Z.shiftl (Z.pos m) e))
  | S754_nan => Raise ValueError
  | S754_infinity _ => Raise OverflowError
  end.

(** Comparison of a [float] with an [int]: Python compares the exact
    values.  [None] when the float is a NaN. *)
Definition compare_float_int (x : float) (z : Z) : option comparison :=
  match x with
  | S754_nan => None
  | S754_infinity s => Some (if s then Lt else Gt)
  | S754_zero _ => Some (0 ?= z)
  | S754_finite s m e =>
      if 0 <=? e
      then Some (cond_Zopp s (Z.pos m) * 2 ^ e ?= z)
      else Some (cond_Zopp s (Z.pos m) ?= z * 2 ^ (- e))
  end.

(** [x > z] *)
Definition float_gt_int (x : float) (z : Z) : bool :=
  match compare_float_int x z with Some Gt => true | _ => false end.

(** [x < z] *)
Definition float_lt_int (x : float) (z : Z) : bool :=
  match compare_float_int x z with Some Lt => true | _ => false end.

(** [x >= z] *)
Definition float_ge_int (x : float) (z : Z) : bool :=
  match compare_float_int x z with Some (Gt | Eq) => true | _ => false end.

(** [a / b] on two [int]s: true division.  The quotient is the binary64
    division of the two converted operands, which is CPython's correctly
    rounded quotient whenever both are below [2^53] in magnitude. *)
Definition truediv (a b : Z) : result float :=
  if b =? 0 then Raise ZeroDivisionError
  else
    x ← float_of_int a;
    y ← float_of_int b;
    Ok (fdiv x y).

(** The binary64 value [m * 2^e], for writing literals. *)
Definition float_lit (m e : Z) : float := binary_normalize prec emax m e false.

End Py.

Import Py.

(* ===================================================================== *)
(** * Data model shared by the curation tools *)
(* ===================================================================== *)

(** One [{role, content}] record of a trajectory. *)
Record Message := { role : string; content : string }.

(** One line of a dataset file. *)
Record Trajectory := { instance_id : string; messages : list Message }.

(** A prediction artifact [<inst_id>.pred] as the filter reads it. *)
Inductive pred_file :=
  | Unparsable                          (* [json.load(f)["model_patch"]] raises *)
  | ModelPatch (patch : option string). (* the field: [null] or a string *)

(** What the tools see of the file system. *)
Record World := {
  read_jsonl : string -> result (list Trajectory);
  listdir : string -> result (list string);
  exists_ : string -> bool;
  read_pred : string -> pred_file
}.

(** What a tool's [main] does to its destination path. *)
Inductive event :=
  | DestExists (fp : string)
  | DestWrite (fp : string) (lines : list Trajectory).

(* ===================================================================== *)
(** * filter.py *)
(* ===================================================================== *)

Module Filter.

Definition PATCH_EDIT_MAX : nat := 40.
Definition TOOL_CALL_TOKEN_MAX : Z := 600.

Record DiffStats := {
  added_lines : nat;
  deleted_lines : nat;
  new_files : nat
}.

(** The local variables of [analyze_diff]. *)
Record diff_locals := {
  added : nat;
  deleted : nat;
  new_files_ : nat;
  current_file_is_new : bool
}.

(** One iteration of the [for line in patch_text.splitlines()] loop. *)
Definition analyze_line (st : diff_locals) (line : string) : diff_locals :=
  let st1 :=
    if startswith line "diff --git"
    then {| added := added st; deleted := deleted st;
            new_files_ := new_files_ st; current_file_is_new := false |}
    else st in
  let st2 :=
    if startswith line "new file mode"
    then {| added := added st1; deleted := deleted st1;
            new_files_ := S (new_files_ st1); current_file_is_new := true |}
    else st1 in
  if startswith line "+++" || startswith line "---"
     || startswith line "diff --git" || startswith line "@@"
  then st2 (* continue *)
  else
    let st3 :=
      if startswith line "+" && negb (startswith line "+++")
      then {| added := S (added st2); deleted := deleted st2;
              new_files_ := new_files_ st2;
              current_file_is_new := current_file_is_new st2 |}
      else st2 in
    if startswith line "-" && negb (startswith line "---")
    then {| added := added st3; deleted := S (deleted st3);
            new_files_ := new_files_ st3;
            current_file_is_new := current_file_is_new st3 |}
    else st3.

Definition analyze_diff (patch_text : string) : DiffStats :=
  let st := fold_left analyze_line (splitlines patch_text)
              {| added := 0; deleted := 0; new_files_ := 0;
                 current_file_is_new := false |} in
  {| added_lines := added st; deleted_lines := deleted st;
     new_files := new_files_ st |}.

(** The counts as the design document words them: metadata lines are the
    file headers, [+++], [---] and hunk headers; an added (removed) content
    line starts with [+] ([-]) and is not metadata; a marker line starts
    with [new file mode]. *)
Definition is_metadata (line : string) : bool :=
  startswith line "diff --git" || startswith line "+++"
  || startswith line "---" || startswith line "@@".

Definition is_added_content (line : string) : bool :=
  startswith line "+" && negb (is_metadata line).

Definition is_removed_content (line : string) : bool :=
  startswith line "-" && negb (is_metadata line).

Definition is_new_file_marker (line : string) : bool :=
  startswith line "new file mode".

Definition count_lines (p : string -> bool) (text : string) : nat :=
  length (List.filter p (splitlines text)).

(** The tokenizer collaborator:
    [tokenizer.encode(text, add_special_tokens=False)]. *)
Record Tokenizer := { encode : string -> list Z }.

Definition count_tokens (tokenizer : Tokenizer) (text : string) : nat :=
  length (encode tokenizer text).

(** The values a call site passes to [count_tokens]. *)
Inductive pyarg :=
  | ATokenizer (t : Tokenizer)
  | AStr (s : string).

(** A call of [count_tokens]: the arguments are bound to the two
    positional parameters [(tokenizer, text)]; any other shape of call is
    a [TypeError]. *)
Definition call_count_tokens (args : list pyarg) : result nat :=
  match args with
  | [ATokenizer tokenizer; AStr text] => Ok (count_tokens tokenizer text)
  | _ => Raise TypeError
  end.

(** The parsed command line.  [nargs="+"] options hold a non-empty list
    when given; [[]] stands for an omitted option ([None]). *)
Record Args := {
  dataset : list string;
  folder : list string;
  filter_mode : option string
}.

Fixpoint load_datasets (w : World) (fps : list string)
  : result (list Trajectory) :=
  match fps with
  | [] => Ok []
  | data_fp :: rest =>
      ds ← read_jsonl w data_fp;
      more ← load_datasets w rest;
      Ok (ds ++ more)
  end.

(** *** Mode [long_edit] *)

(** [os.path.join(folder, inst_id, f"{inst_id}.pred")] *)
Definition pred_path (folder_ inst_id : string) : string :=
  path_join folder_ [inst_id; inst_id +:+ ".pred"].

(** The body of [for inst_id in tqdm(subdirs)]. *)
Definition long_edit_step (w : World) (dataset_ids : gset string)
    (folder_ : string) (remove_ids : gset string) (inst_id : string)
  : gset string :=
  if bool_decide (inst_id ∈ dataset_ids) then
    let pred_path := pred_path folder_ inst_id in
    let '(patch, remove_ids) :=
      if negb (exists_ w pred_path) then (None, {[inst_id]} ∪ remove_ids)
      else match read_pred w pred_path with
           | ModelPatch patch => (patch, remove_ids)
           | Unparsable => (None, {[inst_id]} ∪ remove_ids)
           end in
    match patch with
    | Some patch =>
        if String.eqb patch EmptyString then remove_ids
        else
          let diff_stats := analyze_diff patch in
          if (PATCH_EDIT_MAX <? added_lines diff_stats + deleted_lines diff_stats)%nat
          then {[inst_id]} ∪ remove_ids
          else remove_ids
    | None => remove_ids
    end
  else remove_ids (* continue *).

(** [for folder in args.folder] *)
Fixpoint long_edit_folders (w : World) (dataset_ids : gset string)
    (folders : list string) (remove_ids : gset string)
  : result (gset string) :=
  match folders with
  | [] => Ok remove_ids
  | folder_ :: rest =>
      subdirs ← listdir w folder_;
      long_edit_folders w dataset_ids rest
        (fold_left (long_edit_step w dataset_ids folder_) subdirs remove_ids)
  end.

Definition long_edit (w : World) (args : Args) (dataset_ids : gset string)
  : result (gset string) :=
  match folder args with
  | [] => Raise ValueError
  | folders => long_edit_folders w dataset_ids folders ∅
  end.

(** The number of changed lines of an artifact's patch; no patch ([null])
    counts as the empty patch. *)
Definition edit_size (patch : option string) : nat :=
  match patch with
  | Some p => added_lines (analyze_diff p) + deleted_lines (analyze_diff p)
  | None => 0
  end.

(** What makes one visit of an instance directory flag the instance: the
    artifact is missing, or unreadable, or its patch is too long. *)
Definition flags (w : World) (folder_ inst_id : string) : Prop :=
  exists_ w (pred_path folder_ inst_id) = false \/
  read_pred w (pred_path folder_ inst_id) = Unparsable \/
  exists patch,
    read_pred w (pred_path folder_ inst_id) = ModelPatch patch /\
    (PATCH_EDIT_MAX < edit_size patch)%nat.

(** *** Mode [user_length] *)

Definition TARGET_PREFIX : string :=
  "OBSERVATION:" +:+ String LF "Thank you for your work on this issue.".

(** [for msg in data["messages"]], with its [break].  Line 143 calls
    [count_tokens(msg["content"])]: one positional argument. *)
Fixpoint user_tokens (msgs : list Message) (cur_lengths : nat) : result nat :=
  match msgs with
  | [] => Ok cur_lengths
  | msg :: rest =>
      if String.eqb (role msg) "user" then
        if contains TARGET_PREFIX (content msg) then Ok cur_lengths (* break *)
        else
          n ← call_count_tokens [AStr (content msg)];
          user_tokens rest (cur_lengths + n)%nat
      else user_tokens rest cur_lengths
  end.

(** The messages that reach the call of line 143: from the user, and
    without the end-of-episode sentinel. *)
Definition counted (m : Message) : bool :=
  String.eqb (role m) "user" && negb (contains TARGET_PREFIX (content m)).

(** The test of line 145 for one trajectory. *)
Definition user_length_test (data : Trajectory) : result bool :=
  cur_lengths ← user_tokens (messages data) 0%nat;
  avg ← truediv (Z.of_nat cur_lengths) (Z.of_nat (length (messages data)) / 2);
  Ok (float_gt_int avg TOOL_CALL_TOKEN_MAX).

(** [for data in tqdm(loaded_dataset)] *)
Fixpoint user_length (loaded_dataset : list Trajectory)
    (remove_ids : gset string) : result (gset string) :=
  match loaded_dataset with
  | [] => Ok remove_ids
  | data :: rest =>
      flagged ← user_length_test data;
      user_length rest
        (if flagged : bool then {[instance_id data]} ∪ remove_ids else remove_ids)
  end.

(** *** [main] *)

(** Lines 89 to 153: everything before the destination is touched.  The
    tokenizer is loaded in mode [user_length] and then never passed on. *)
Definition select (w : World) (tokenizer : Tokenizer) (args : Args)
  : result (list Trajectory * gset string) :=
  match dataset args with
  | [] => Raise TypeError
  | _ =>
      loaded_dataset ← load_datasets w (dataset args);
      let dataset_ids : gset string :=
        list_to_set (map instance_id loaded_dataset) in
      remove_ids ←
        match filter_mode args with
        | Some mode =>
            if String.eqb mode "long_edit" then long_edit w args dataset_ids
            else if String.eqb mode "user_length" then user_length loaded_dataset ∅
            else Raise RuntimeError
        | None => Raise RuntimeError
        end;
      (* line 153: len(remove_ids)/len(loaded_dataset) *)
      if (length loaded_dataset =? 0)%nat then Raise ZeroDivisionError
      else Ok (loaded_dataset, remove_ids)
  end.

(** [f"{front}_filter_{args.filter_mode}{tail}"] *)
Definition new_fp (args : Args) : string :=
  let '(front, tail) := splitext (hd EmptyString (dataset args)) in
  front +:+ "_filter_" +:+ default "None" (filter_mode args) +:+ tail.

Definition main (w : World) (tokenizer : Tokenizer) (args : Args)
  : result unit * list event :=
  match select w tokenizer args with
  | Raise e => (Raise e, [])
  | Ok (loaded_dataset, remove_ids) =>
      if exists_ w (new_fp args)
      then (Raise FileExistsError, [DestExists (new_fp args)])
      else (Ok (),
            [DestExists (new_fp args);
             DestWrite (new_fp args)
               (filter (fun d => instance_id d ∉ remove_ids) loaded_dataset)])
  end.

End Filter.

(* ===================================================================== *)
(** * scale.py *)
(* ===================================================================== *)

Module Scale.

(** [sera.utils.filter_messages], in its two uses: the length filter
    [filter_messages(ds)], and the list of (ratio, trajectory) pairs of
    [filter_messages(dataset, truncate=True,
    return_token_to_data_tuples=True)].  A ratio is a finite float that
    is only ever compared: it is held as the rational it denotes. *)
Record Collaborators := {
  filter_messages : list Trajectory -> list Trajectory;
  token_to_data_tuples : list Trajectory -> list (Q * Trajectory)
}.

(** The module [random]: [shuffle] returns some permutation, [sample]
    some [k] elements drawn without replacement. *)
Class RandomSource := {
  rng : Type;
  shuffle : forall {A}, list A -> rng -> list A * rng;
  sample : forall {A}, list A -> nat -> rng -> list A * rng;
  shuffle_perm : forall A (l : list A) g, Permutation (shuffle l g).1 l;
  sample_perm : forall A (l : list A) k g,
    (k <= length l)%nat ->
    length (sample l k g).1 = k /\
    exists rest, Permutation ((sample l k g).1 ++ rest) l
}.

Record Args := {
  dataset : list string;
  type_ : option string;
  number : option float;
  threshold : option Q;
  output_file : option string;
  no_filter : bool
}.

(** *** [scale_repos] *)

Definition repo_name (data : Trajectory) : string :=
  drop_last (join "_" (split "_"%char (instance_id data))).

(** A [dict] from repository names to lists, in insertion order. *)
Definition repo_dict := list (string * list Trajectory).

Fixpoint dict_get (m : repo_dict) (k : string) : result (list Trajectory) :=
  match m with
  | [] => Raise KeyError
  | (k', v) :: m' => if String.eqb k k' then Ok v else dict_get m' k
  end.

(** [if k not in m: m[k] = []] followed by [m[k].append(data)] *)
Fixpoint dict_append (m : repo_dict) (k : string) (data : Trajectory)
  : repo_dict :=
  match m with
  | [] => [(k, [data])]
  | (k', v) :: m' =>
      if String.eqb k k' then (k', v ++ [data]) :: m'
      else (k', v) :: dict_append m' k data
  end.

Definition group_by_repo (dataset : list Trajectory) : repo_dict :=
  fold_left (fun m data => dict_append m (repo_name data) data) dataset [].

(** The repository bucket of a key: the trajectories of the dataset whose
    [instance_id], its final character dropped, is the key. *)
Definition bucket (dataset : list Trajectory) (key : string)
  : list Trajectory :=
  filter (fun data => drop_last (instance_id data) = key) dataset.

(** [for repo_name in repo_order], with its [break]. *)
Fixpoint add_repos (repo_to_data : repo_dict) (number : Z)
    (repo_order : list string) (new_dataset : list Trajectory)
  : result (list Trajectory) :=
  match repo_order with
  | [] => Ok new_dataset
  | repo_name :: rest =>
      group ← dict_get repo_to_data repo_name;
      if Z.of_nat (length new_dataset) <? number
      then add_repos repo_to_data number rest (new_dataset ++ group)
      else Ok new_dataset (* break *)
  end.

Definition scale_repos `{RandomSource} (dataset : list Trajectory)
    (number : Z) (g : rng) : result (list Trajectory) * rng :=
  let repo_to_data := group_by_repo dataset in
  let '(repo_order, g) := shuffle (map fst repo_to_data) g in
  (add_repos repo_to_data number repo_order [], g).

(** *** [scale_tokens] *)

(** [sorted(l, key=lambda x: x[0], reverse=True)]: descending and stable. *)
Fixpoint insert_desc (x : Q * Trajectory) (l : list (Q * Trajectory))
  : list (Q * Trajectory) :=
  match l with
  | [] => [x]
  | y :: l' => if Qle_bool (fst y) (fst x) then x :: l else y :: insert_desc x l'
  end.

Definition sorted_desc (l : list (Q * Trajectory)) : list (Q * Trajectory) :=
  fold_right insert_desc [] l.

(** Descending by ratio. *)
Definition ratio_ge (a b : Q * Trajectory) : Prop := (fst b <= fst a)%Q.

(** [not threshold] *)
Definition not_threshold (threshold : option Q) : bool :=
  match threshold with
  | None => true
  | Some t => Qeq_bool t 0
  end.

Definition scale_tokens `{RandomSource} (c : Collaborators)
    (dataset : list Trajectory) (number : Z) (threshold : option Q) (g : rng)
  : result (list Trajectory) * rng :=
  let '(token_to_data_tuples, g) := shuffle (token_to_data_tuples c dataset) g in
  let number := Z.min number (Z.of_nat (length token_to_data_tuples)) in
  let sorted_token_to_tuples := sorted_desc token_to_data_tuples in
  (* line 91 reads entries [0] and [number-1] of the sorted list *)
  (_ ← index sorted_token_to_tuples 0;
   _ ← index sorted_token_to_tuples (number - 1);
   match threshold with
   | Some t =>
       if not_threshold threshold
       then Ok (slice_to (map snd sorted_token_to_tuples) number)
       else Ok (slice_to
                  (map snd (filter (fun tup => Qle_bool t (fst tup))
                              sorted_token_to_tuples)) number)
   | None => Ok (slice_to (map snd sorted_token_to_tuples) number)
   end, g).

(** *** [main] *)

Definition type_is (args : Args) (name : string) : bool :=
  match type_ args with
  | Some t => String.eqb t name
  | None => false
  end.

(** Lines 106 to 111. *)
Fixpoint load_datasets (w : World) (c : Collaborators) (args : Args)
    (fps : list string) : result (list Trajectory) :=
  match fps with
  | [] => Ok []
  | dataset_fp :: rest =>
      ds ← read_jsonl w dataset_fp;
      let ds := if negb (no_filter args) && negb (type_is args "tokens")
                then filter_messages c ds else ds in
      more ← load_datasets w c args rest;
      Ok (ds ++ more)
  end.

(** Lines 112 to 117: from [args.number] to [number]. *)
Definition target_number (number : float) (total : nat) : result Z :=
  if float_gt_int number (Z.of_nat total) then Ok (Z.of_nat total)
  else if float_gt_int number 0 && float_lt_int number 1 then
    len ← float_of_int (Z.of_nat total);
    let number := fmul number len in
    (* line 116 formats [args.number / len(total_ds)] *)
    if (total =? 0)%nat then Raise ZeroDivisionError
    else int_of_float number
  else int_of_float number.

(** Lines 121 to 133: the strategy, and the [number] used in the
    default file name. *)
Definition dispatch `{RandomSource} (c : Collaborators) (args : Args)
    (total_ds : list Trajectory) (number : Z) (g : rng)
  : result (list Trajectory * Z) :=
  if type_is args "repo" then
    scaled_ds ← (scale_repos total_ds number g).1;
    Ok (scaled_ds, Z.of_nat (length scaled_ds))
  else if type_is args "tokens" then
    scaled_ds ← (scale_tokens c total_ds number (threshold args) g).1;
    Ok (scaled_ds, Z.of_nat (length scaled_ds))
  else if type_is args "random" then
    if (number <? 0) || (Z.of_nat (length total_ds) <? number)
    then Raise ValueError
    else Ok ((sample total_ds (Z.to_nat number) g).1, number)
  else Raise RuntimeError.

(** Lines 104 to 133. *)
Definition select `{RandomSource} (w : World) (c : Collaborators)
    (args : Args) (g : rng) : result (list Trajectory * Z) :=
  match dataset args with
  | [] => Raise TypeError
  | _ =>
      total_ds ← load_datasets w c args (dataset args);
      match number args with
      | None => Raise TypeError
      | Some n =>
          number ← target_number n (length total_ds);
          let '(total_ds, g) := shuffle total_ds g in
          dispatch c args total_ds number g
      end
  end.

(** Lines 134 to 139. *)
Definition fp (args : Args) (number : Z) : string :=
  let name :=
    match output_file args with
    | Some o => if String.eqb o EmptyString then None else Some (o +:+ ".jsonl")
    | None => None
    end in
  let name :=
    default (default "None" (type_ args) +:+ "_" +:+ str_of_int number
             +:+ ".jsonl") name in
  path_join (dirname (hd EmptyString (dataset args))) [name].

(** [open(fp, "w")] of line 144 cannot create a file in a directory
    that is not there: the path may name one through [-o]. *)
Definition can_open_w (w : World) (fp : string) : bool :=
  String.eqb (dirname fp) EmptyString || exists_ w (dirname fp).

Definition main `{RandomSource} (w : World) (c : Collaborators)
    (args : Args) (g : rng) : result unit * list event :=
  match select w c args g with
  | Raise e => (Raise e, [])
  | Ok (scaled_ds, number) =>
      match scaled_ds with
      | [] => (Ok (), [])
      | _ =>
          if exists_ w (fp args number)
          then (Raise FileExistsError, [DestExists (fp args number)])
          else if can_open_w w (fp args number)
          then (Ok (),
                [DestExists (fp args number); DestWrite (fp args number) scaled_ds])
          else (Raise FileNotFoundError, [DestExists (fp args number)])
      end
  end.

End Scale.

(* ===================================================================== *)
(** * main.py *)
(* ===================================================================== *)

Module Pipeline.

Inductive stage :=
  | generate | distill_stage_one | distill_stage_two | eval | postprocess.

(** [Experiment.stage_map] *)
Definition stage_map : list (string * Z) :=
  [("pipeline", -1); ("generate", 0); ("distill_stage_one", 1);
   ("distill_stage_two", 2); ("eval", 3); ("postprocess", 4)].

Fixpoint stage_map_get (m : list (string * Z)) (name : string) : option Z :=
  match m with
  | [] => None
  | (k, v) :: m' => if String.eqb name k then Some v else stage_map_get m' name
  end.

(** The index [stage_map] gives to a concrete stage. *)
Definition stage_index (s : stage) : Z :=
  match s with
  | generate => 0
  | distill_stage_one => 1
  | distill_stage_two => 2
  | eval => 3
  | postprocess => 4
  end.

(** What the experiment does that can be observed from outside: a stage
    method is entered with its [skip] flag, or a collaborator is called. *)
Inductive call :=
  | Enter (s : stage) (skip : bool)
  | generate_method
  | distill_method (stage_name : string) (metadata_only : bool)
  | scrape_synthetic_prs (instances_fp output_dir : string)
  | save_yaml (fp : string)
  | eval_loop (instances_fp second_stage_dir : string)
  | dump_json (fp : string)
  | format_and_save (traj_dir : string) (report_path : option string).

(** The configuration, and what the distill collaborator returns:
    [distill_paths stage metadata_only] is the pair
    [(output_dir, instances_fp)] that
    [distill_method(config, folder, stage, metadata_only)] hands back.  The
    collaborator is not part of these sources; nothing is assumed of how
    its result depends on its two arguments. *)
Record Config := {
  data_dir : string;
  compare_patch_threshold : string;
  distill_paths : string -> bool -> string * string
}.

(** The attributes of an [Experiment] (unset until a stage assigns them),
    whether [stage_two_instances.yaml] exists, and the calls made so far. *)
Record Experiment := {
  stage_one_output_dir : option string;
  stage_one_instances_fp : option string;
  stage_two_output_dir : option string;
  stage_two_instances_fp : option string;
  report_fp : option string;
  stage_two_yaml_exists : bool;
  trace : list call
}.

(** [Experiment.__init__] *)
Definition init (yaml_exists : bool) : Experiment :=
  {| stage_one_output_dir := None; stage_one_instances_fp := None;
     stage_two_output_dir := None; stage_two_instances_fp := None;
     report_fp := None; stage_two_yaml_exists := yaml_exists; trace := [] |}.

Definition log (c : call) (e : Experiment) : Experiment :=
  {| stage_one_output_dir := stage_one_output_dir e;
     stage_one_instances_fp := stage_one_instances_fp e;
     stage_two_output_dir := stage_two_output_dir e;
     stage_two_instances_fp := stage_two_instances_fp e;
     report_fp := report_fp e;
     stage_two_yaml_exists := stage_two_yaml_exists e;
     trace := trace e ++ [c] |}.

(** Reading an attribute that no stage has assigned yet. *)
Definition attr (a : option string) : result string :=
  match a with
  | Some v => Ok v
  | None => Raise AttributeError
  end.

Definition _run_generate (cfg : Config) (skip : bool) (e : Experiment)
  : result Experiment :=
  let e := log (Enter generate skip) e in
  if negb skip then Ok (log generate_method e) else Ok e.

Definition _run_distill_one (cfg : Config) (skip : bool) (e : Experiment)
  : result Experiment :=
  let e := log (Enter distill_stage_one skip) e in
  let e := log (distill_method "stage_one" skip) e in
  let '(output_dir, instances_fp) := distill_paths cfg "stage_one" skip in
  Ok {| stage_one_output_dir := Some output_dir;
        stage_one_instances_fp := Some instances_fp;
        stage_two_output_dir := stage_two_output_dir e;
        stage_two_instances_fp := stage_two_instances_fp e;
        report_fp := report_fp e;
        stage_two_yaml_exists := stage_two_yaml_exists e;
        trace := trace e |}.

Definition _run_distill_two (cfg : Config) (skip : bool) (e : Experiment)
  : result Experiment :=
  let e := log (Enter distill_stage_two skip) e in
  let yaml_fp := path_join (data_dir cfg) ["stage_two_instances.yaml"] in
  e ← (if negb skip && negb (stage_two_yaml_exists e) then
         instances_fp ← attr (stage_one_instances_fp e);
         output_dir ← attr (stage_one_output_dir e);
         let e := log (scrape_synthetic_prs instances_fp output_dir) e in
         let e := log (save_yaml yaml_fp) e in
         Ok {| stage_one_output_dir := stage_one_output_dir e;
               stage_one_instances_fp := stage_one_instances_fp e;
               stage_two_output_dir := stage_two_output_dir e;
               stage_two_instances_fp := stage_two_instances_fp e;
               report_fp := report_fp e;
               stage_two_yaml_exists := true;
               trace := trace e |}
       else Ok e);
  let e := log (distill_method "stage_two" skip) e in
  let '(output_dir, instances_fp) := distill_paths cfg "stage_two" skip in
  Ok {| stage_one_output_dir := stage_one_output_dir e;
        stage_one_instances_fp := stage_one_instances_fp e;
        stage_two_output_dir := Some output_dir;
        stage_two_instances_fp := Some instances_fp;
        report_fp := report_fp e;
        stage_two_yaml_exists := stage_two_yaml_exists e;
        trace := trace e |}.

Definition set_report_fp (fp : string) (e : Experiment) : Experiment :=
  {| stage_one_output_dir := stage_one_output_dir e;
     stage_one_instances_fp := stage_one_instances_fp e;
     stage_two_output_dir := stage_two_output_dir e;
     stage_two_instances_fp := stage_two_instances_fp e;
     report_fp := Some fp;
     stage_two_yaml_exists := stage_two_yaml_exists e;
     trace := trace e |}.

Definition _run_eval (cfg : Config) (skip : bool) (e : Experiment)
  : result Experiment :=
  let e := log (Enter eval skip) e in
  output_dir ← attr (stage_two_output_dir e);
  let fp := path_join output_dir
              ["report_t" +:+ compare_patch_threshold cfg +:+ ".json"] in
  if skip then Ok (set_report_fp fp e)
  else
    instances_fp ← attr (stage_two_instances_fp e);
    let e := log (eval_loop instances_fp output_dir) e in
    let e := log (dump_json fp) e in
    Ok (set_report_fp fp e).

Definition _run_postprocess (cfg : Config) (skip : bool) (e : Experiment)
  : result Experiment :=
  let e := log (Enter postprocess skip) e in
  one_dir ← attr (stage_one_output_dir e);
  let e := log (format_and_save one_dir None) e in
  two_dir ← attr (stage_two_output_dir e);
  report ← attr (report_fp e);
  Ok (log (format_and_save two_dir (Some report)) e).

Definition _run_pipeline (cfg : Config) (stage_idx : Z) (e : Experiment)
  : result Experiment :=
  e ← _run_generate cfg (0 <? stage_idx) e;
  e ← _run_distill_one cfg (1 <? stage_idx) e;
  e ← _run_distill_two cfg (2 <? stage_idx) e;
  e ← _run_eval cfg (3 <? stage_idx) e;
  _run_postprocess cfg (4 <? stage_idx) e.

(** [Experiment.run] *)
Definition run (cfg : Config) (stage_name : string) (e : Experiment)
  : result Experiment :=
  match stage_map_get stage_map stage_name with
  | None => Raise ValueError
  | Some stage_idx => _run_pipeline cfg stage_idx e
  end.

(** The stage methods entered along a trace, with their [skip] flag. *)
Fixpoint entered (tr : list call) : list (stage * bool) :=
  match tr with
  | [] => []
  | Enter s skip :: tr' => (s, skip) :: entered tr'
  | _ :: tr' => entered tr'
  end.

(** The calls one run of [_run_pipeline] makes, read off the five stage
    methods in order: [yaml_exists] tells whether
    [stage_two_instances.yaml] is there when the run starts. *)
Definition run_calls (cfg : Config) (stage_idx : Z) (yaml_exists : bool)
  : list call :=
  let '(one_dir, one_fp) := distill_paths cfg "stage_one" (1 <? stage_idx) in
  let '(two_dir, two_fp) := distill_paths cfg "stage_two" (2 <? stage_idx) in
  let report :=
    path_join two_dir ["report_t" +:+ compare_patch_threshold cfg +:+ ".json"] in
  [Enter generate (0 <? stage_idx)]
  ++ (if 0 <? stage_idx then [] else [generate_method])
  ++ [Enter distill_stage_one (1 <? stage_idx);
      distill_method "stage_one" (1 <? stage_idx);
      Enter distill_stage_two (2 <? stage_idx)]
  ++ (if (2 <? stage_idx) || yaml_exists then []
      else [scrape_synthetic_prs one_fp one_dir;
            save_yaml (path_join (data_dir cfg) ["stage_two_instances.yaml"])])
  ++ [distill_method "stage_two" (2 <? stage_idx);
      Enter eval (3 <? stage_idx)]
  ++ (if 3 <? stage_idx then [] else [eval_loop two_fp two_dir; dump_json report])
  ++ [Enter postprocess (4 <? stage_idx);
      format_and_save one_dir None;
      format_and_save two_dir (Some report)].

End Pipeline.

(* ===================================================================== *)
(** * Concrete inputs used below *)
(* ===================================================================== *)

Module Samples.
Import Filter.

(** A two-file diff: one new file with two added lines, one edited file
    with one line replaced. *)
Definition sample_diff : string :=
  join (String LF EmptyString)
    ["diff --git a/new.py b/new.py";
     "new file mode 100644";
     "--- /dev/null";
     "+++ b/new.py";
     "@@ -0,0 +1,2 @@";
     "+import os";
     "+print(os.name)";
     "diff --git a/old.py b/old.py";
     "--- a/old.py";
     "+++ b/old.py";
     "@@ -1,3 +1,3 @@";
     " x = 1";
     "-y = 2";
     "+y = 3";
     " z = 4"].

(** A tokenizer giving every text 100 tokens. *)
Definition tok100 : Tokenizer := {| encode := fun _ => repeat 0 100 |}.

Definition msg (r c : string) : Message := {| role := r; content := c |}.

(** Nine messages, four of them from the user. *)
Definition traj9 : Trajectory :=
  {| instance_id := "repo_1";
     messages :=
       [msg "system" "You are a helpful assistant.";
        msg "user" "Fix the failing test.";
        msg "assistant" "ls";
        msg "user" "OBSERVATION: a.py b.py";
        msg "assistant" "cat a.py";
        msg "user" "OBSERVATION: x = 1";
        msg "assistant" "edit a.py";
        msg "user" "OBSERVATION: file edited";
        msg "assistant" "submit"] |}.

(** A trajectory without any user message. *)
Definition agent_only : Trajectory :=
  {| instance_id := "repo_3";
     messages := [msg "system" "s"; msg "assistant" "a"] |}.

(** A trajectory without messages. *)
Definition traj0 : Trajectory := {| instance_id := "repo_2"; messages := [] |}.

(** A file system holding one dataset file and nothing else. *)
Definition world_of (ds : list Trajectory) (dest_exists : bool) : World :=
  {| read_jsonl := fun fp =>
       if String.eqb fp "data/train.jsonl" then Ok ds else Raise OSError;
     listdir := fun _ => Raise OSError;
     exists_ := fun _ => dest_exists;
     read_pred := fun _ => Unparsable |}.

Definition user_length_args : Args :=
  {| dataset := ["data/train.jsonl"]; folder := [];
     filter_mode := Some "user_length" |}.

(** A trajectory folder [traj] with four instance directories:
    [a_1] has no prediction file, [b_1] an unreadable one, [c_1] a patch of
    41 added lines, [d_1] the small patch [sample_diff]. *)
Definition long_patch : string :=
  join (String LF EmptyString) (repeat "+x = 0" 41).

Definition world_long_edit : World :=
  {| read_jsonl := fun _ => Raise OSError;
     listdir := fun f =>
       if String.eqb f "traj" then Ok ["a_1"; "b_1"; "c_1"; "d_1"]
       else Raise OSError;
     exists_ := fun fp => negb (String.eqb fp "traj/a_1/a_1.pred");
     read_pred := fun fp =>
       if String.eqb fp "traj/c_1/c_1.pred" then ModelPatch (Some long_patch)
       else if String.eqb fp "traj/d_1/d_1.pred" then ModelPatch (Some sample_diff)
       else Unparsable |}.

Definition long_edit_args : Args :=
  {| dataset := ["data/train.jsonl"]; folder := ["traj"];
     filter_mode := Some "long_edit" |}.

(** The dataset naming the four instances of [traj] and one more. *)
Definition five_instances : list Trajectory :=
  map (fun id => {| instance_id := id; messages := [] |})
    ["a_1"; "b_1"; "c_1"; "d_1"; "unrelated_1"].

(** The folder of [world_long_edit] beside a dataset file holding
    [five_instances]; no other path exists. *)
Definition world_dataset_and_traj : World :=
  {| read_jsonl := fun fp =>
       if String.eqb fp "data/train.jsonl" then Ok five_instances
       else Raise OSError;
     listdir := listdir world_long_edit;
     exists_ := fun fp =>
       String.eqb fp "traj/b_1/b_1.pred" || String.eqb fp "traj/c_1/c_1.pred"
       || String.eqb fp "traj/d_1/d_1.pred";
     read_pred := read_pred world_long_edit |}.

Definition long_edit_ids : gset string :=
  list_to_set ["a_1"; "b_1"; "c_1"; "d_1"; "unrelated_1"].

(** A random source that leaves every list in its order and samples the
    first [k] elements. *)
Definition in_order : Scale.RandomSource :=
  {| Scale.rng := unit;
     Scale.shuffle := fun A l g => (l, g);
     Scale.sample := fun A l k g => (firstn k l, g);
     Scale.shuffle_perm := fun A l g => Permutation_refl l;
     Scale.sample_perm := fun A l k g H =>
       conj (firstn_length_le l H)
            (ex_intro _ (skipn k l)
               (eq_ind_r (fun x => Permutation x l) (Permutation_refl l)
                  (firstn_skipn k l))) |}.

(** A truncation collaborator that rates a trajectory by the length of
    its [instance_id]: tenths, at most 1. *)
Definition by_id_length : Scale.Collaborators :=
  {| Scale.filter_messages := fun ds => ds;
     Scale.token_to_data_tuples := fun ds =>
       map (fun d => (Qmake (Z.min 10 (Z.of_nat (String.length (instance_id d)))) 10,
                      d)) ds |}.

(** [scale.py -d data/train.jsonl -t random -n 0] *)
Definition scale_zero_args : Scale.Args :=
  {| Scale.dataset := ["data/train.jsonl"];
     Scale.type_ := Some "random";
     Scale.number := Some (S754_zero false);
     Scale.threshold := None;
     Scale.output_file := None;
     Scale.no_filter := true |}.

(** [scale.py -d data/train.jsonl -t random -n 0.5 -nf] *)
Definition scale_random_args : Scale.Args :=
  {| Scale.dataset := ["data/train.jsonl"];
     Scale.type_ := Some "random";
     Scale.number := Some (float_lit 1 (-1));
     Scale.threshold := None;
     Scale.output_file := None;
     Scale.no_filter := true |}.

(** [scale.py -d data/train.jsonl -t repo -n 2] *)
Definition scale_repo_args : Scale.Args :=
  {| Scale.dataset := ["data/train.jsonl"];
     Scale.type_ := Some "repo";
     Scale.number := Some (float_lit 2 0);
     Scale.threshold := None;
     Scale.output_file := None;
     Scale.no_filter := true |}.

Definition traj (id : string) : Trajectory :=
  {| instance_id := id; messages := [] |}.

(** Two repositories, [django] with three instances and [flask] with one. *)
Definition two_repos : list Trajectory :=
  [traj "django_1"; traj "flask_1"; traj "django_2"; traj "django_3"].

(** A pipeline configuration. *)
Definition cfg : Pipeline.Config :=
  {| Pipeline.data_dir := "expt/data";
     Pipeline.compare_patch_threshold := "0.5";
     Pipeline.distill_paths := fun stage_name _ =>
       ("expt/" +:+ stage_name, "expt/" +:+ stage_name +:+ "_instances.yaml") |}.

End Samples.

(* ===================================================================== *)
(** * Properties of [analyze_diff] *)
(* ===================================================================== *)

Module DiffFacts.
Import Filter Samples.

Lemma analyze_line_added st line :
  added (analyze_line st line) =
  (added st + if is_added_content line then 1 else 0)%nat.
Proof.
  unfold analyze_line, is_added_content, is_metadata.
  destruct (startswith line "diff --git"), (startswith line "new file mode"),
    (startswith line "+++"), (startswith line "---"), (startswith line "@@"),
    (startswith line "+"), (startswith line "-"); simpl; lia.
Qed.

Lemma analyze_line_deleted st line :
  deleted (analyze_line st line) =
  (deleted st + if is_removed_content line then 1 else 0)%nat.
Proof.
  unfold analyze_line, is_removed_content, is_metadata.
  destruct (startswith line "diff --git"), (startswith line "new file mode"),
    (startswith line "+++"), (startswith line "---"), (startswith line "@@"),
    (startswith line "+"), (startswith line "-"); simpl; lia.
Qed.

Lemma analyze_line_new_files st line :
  new_files_ (analyze_line st line) =
  (new_files_ st + if is_new_file_marker line then 1 else 0)%nat.
Proof.
  unfold analyze_line, is_new_file_marker.
  destruct (startswith line "diff --git"), (startswith line "new file mode"),
    (startswith line "+++"), (startswith line "---"), (startswith line "@@"),
    (startswith line "+"), (startswith line "-"); simpl; lia.
Qed.

Lemma filter_length_cons {A} (p : A -> bool) x l :
  length (List.filter p (x :: l)) =
  ((if p x then 1 else 0) + length (List.filter p l))%nat.
Proof. simpl. destruct (p x); reflexivity. Qed.

Lemma fold_analyze_line lines : forall st,
  let st' := fold_left analyze_line lines st in
  added st' = (added st + length (List.filter is_added_content lines))%nat /\
  deleted st' = (deleted st + length (List.filter is_removed_content lines))%nat /\
  new_files_ st' =
    (new_files_ st + length (List.filter is_new_file_marker lines))%nat.
Proof.
  induction lines as [|line lines IH]; intros st; cbn zeta.
  - simpl. lia.
  - cbn [fold_left]. specialize (IH (analyze_line st line)). cbn zeta in IH.
    destruct IH as (Ha & Hd & Hn).
    rewrite Ha, Hd, Hn, analyze_line_added, analyze_line_deleted,
      analyze_line_new_files, !filter_length_cons.
    lia.
Qed.

Lemma analyze_diff_spec text :
  analyze_diff text =
  {| added_lines := count_lines is_added_content text;
     deleted_lines := count_lines is_removed_content text;
     new_files := count_lines is_new_file_marker text |}.
Proof.
  unfold analyze_diff, count_lines.
  destruct (fold_analyze_line (splitlines text)
              {| added := 0; deleted := 0; new_files_ := 0;
                 current_file_is_new := false |}) as (Ha & Hd & Hn).
  cbn zeta in *. rewrite Ha, Hd, Hn. reflexivity.
Qed.

Lemma analyze_diff_empty :
  analyze_diff EmptyString = {| added_lines := 0; deleted_lines := 0; new_files := 0 |}.
Proof. reflexivity. Qed.

(** C6: a diff text with exactly [k] added content lines, [m] removed
    content lines (metadata lines [diff --git], [+++], [---], [@@] left
    out) and [j] [new file mode] marker lines is analysed to
    [added_lines = k], [deleted_lines = m], [new_files = j]; the empty text
    is analysed to [(0, 0, 0)]. *)
Theorem C6_analyze_diff_counts :
  (forall (text : string) (k m j : nat),
     count_lines is_added_content text = k ->
     count_lines is_removed_content text = m ->
     count_lines is_new_file_marker text = j ->
     analyze_diff text =
     {| added_lines := k; deleted_lines := m; new_files := j |}) /\
  analyze_diff EmptyString = {| added_lines := 0; deleted_lines := 0; new_files := 0 |}.
Proof.
  split; [|apply analyze_diff_empty].
  intros text k m j <- <- <-. apply analyze_diff_spec.
Qed.

Lemma C6_analyze_diff_counts_witness :
  analyze_diff sample_diff =
  {| added_lines := 3; deleted_lines := 1; new_files := 1 |}.
Proof.
  apply (proj1 C6_analyze_diff_counts sample_diff 3 1 1)%nat; reflexivity.
Defined.

End DiffFacts.

(* ===================================================================== *)
(** * Properties of the stage pipeline *)
(* ===================================================================== *)

Module PipelineFacts.
Import Pipeline.

(** Every stage method returns once the attributes it reads are set, and
    [_run_pipeline] sets them in order: it always runs to its end. *)
Lemma _run_pipeline_trace cfg stage_idx yaml :
  exists e,
    _run_pipeline cfg stage_idx (init yaml) = Ok e /\
    entered (trace e) =
      [(generate, 0 <? stage_idx); (distill_stage_one, 1 <? stage_idx);
       (distill_stage_two, 2 <? stage_idx); (eval, 3 <? stage_idx);
       (postprocess, 4 <? stage_idx)].
Proof.
  unfold _run_pipeline, _run_generate, _run_distill_one, _run_distill_two,
    _run_eval, _run_postprocess, init.
  destruct (distill_paths cfg "stage_one" (1 <? stage_idx)) as [d1 i1] eqn:E1.
  destruct (distill_paths cfg "stage_two" (2 <? stage_idx)) as [d2 i2] eqn:E2.
  destruct (0 <? stage_idx), (1 <? stage_idx), (2 <? stage_idx),
    (3 <? stage_idx), (4 <? stage_idx), yaml;
    cbn; rewrite ?E1, ?E2; cbn; rewrite ?E1, ?E2; cbn;
    eexists; (split; [reflexivity|reflexivity]).
Qed.

(** C1, as the code has it: for every requested stage index [S] the five
    stage methods are all entered, in their fixed order; a stage runs in
    skip mode exactly when its index is below [S], and in full mode
    otherwise.  Requesting [eval] (index 3) runs [generate],
    [distill_stage_one] and [distill_stage_two] in skip mode and [eval] and
    [postprocess] in full mode. *)
Theorem C1_resume_from_stage :
  (forall cfg S yaml,
     exists e,
       _run_pipeline cfg S (init yaml) = Ok e /\
       map fst (entered (trace e)) =
         [generate; distill_stage_one; distill_stage_two; eval; postprocess] /\
       forall s skip,
         In (s, skip) (entered (trace e)) <-> skip = (stage_index s <? S)) /\
  (forall cfg yaml,
     exists e,
       run cfg "eval" (init yaml) = Ok e /\
       entered (trace e) =
         [(generate, true); (distill_stage_one, true);
          (distill_stage_two, true); (eval, false); (postprocess, false)]).
Proof.
  split.
  - intros cfg S yaml.
    destruct (_run_pipeline_trace cfg S yaml) as (e & He & Htr).
    exists e. split; [exact He|]. rewrite Htr. split; [reflexivity|].
    intros s skip. simpl. split.
    + intros [H|[H|[H|[H|[H|[]]]]]]; inversion H; subst; reflexivity.
    + intros ->. destruct s; simpl; tauto.
  - intros cfg yaml. apply (_run_pipeline_trace cfg 3 yaml).
Qed.

(** C1 as worded fails at index 3: [postprocess] (index 4) is entered, and
    its formatting collaborator is called. *)
Lemma C1_postprocess_runs_on_eval :
  exists e,
    run Samples.cfg "eval" (init false) = Ok e /\
    ~ (forall s skip, In (Enter s skip) (trace e) -> stage_index s <= 3) /\
    In (Enter postprocess false) (trace e) /\
    In (format_and_save "expt/stage_one" None) (trace e).
Proof.
  eexists. split; [reflexivity|]. split; [|split].
  - intros H. specialize (H postprocess false). simpl in H.
    assert (4 <= 3) by (apply H; tauto). lia.
  - simpl. tauto.
  - simpl. tauto.
Qed.

End PipelineFacts.

(* ===================================================================== *)
(** * Properties of the filter modes *)
(* ===================================================================== *)

Module FilterFacts.
Import Filter.

(** ** [long_edit] *)

(** Closes a goal whose hypothesis claims a flag that the artifact read
    in the context rules out. *)
Ltac no_flag :=
  match goal with
  | H : ?x ∈ _ \/ _ |- _ =>
      destruct H as [H|(-> & _ & [H|[H|(? & H & ?)]])];
      [exact H| try congruence ..];
      inversion H; subst; cbn in *; unfold PATCH_EDIT_MAX in *; lia
  end.

Lemma long_edit_step_elem w ids folder_ R inst x :
  x ∈ long_edit_step w ids folder_ R inst <->
  x ∈ R \/ (x = inst /\ inst ∈ ids /\ flags w folder_ inst).
Proof.
  unfold long_edit_step, flags.
  destruct (bool_decide (inst ∈ ids)) eqn:Hin.
  - apply bool_decide_eq_true in Hin.
    destruct (exists_ w (pred_path folder_ inst)) eqn:Hex; cbn [negb].
    + destruct (read_pred w (pred_path folder_ inst)) as [|[p|]] eqn:Hrd.
      * rewrite elem_of_union, elem_of_singleton. split.
        -- intros [->|H']; [right|left]; eauto.
        -- intros [H'|(-> & _)]; tauto.
      * destruct (String.eqb p EmptyString) eqn:Hp.
        -- apply String.eqb_eq in Hp. subst p.
           split; [tauto|]. intros H. no_flag.
        -- cbn [edit_size].
           destruct (Nat.ltb_spec PATCH_EDIT_MAX
             (added_lines (analyze_diff p) + deleted_lines (analyze_diff p))).
           ++ rewrite elem_of_union, elem_of_singleton.
              split; [intros [->|H']; [right|left]; eauto 10|].
              intros [H'|(-> & _)]; tauto.
           ++ split; [tauto|]. intros H'. no_flag.
      * split; [tauto|]. intros H. no_flag.
    + rewrite elem_of_union, elem_of_singleton. split.
      * intros [->|H']; [right|left]; eauto.
      * intros [H'|(-> & _)]; tauto.
  - apply bool_decide_eq_false in Hin. split; [tauto|].
    intros [H|(-> & Hc & _)]; [exact H|contradiction].
Qed.

Lemma long_edit_fold_elem w ids folder_ subdirs : forall R x,
  x ∈ fold_left (long_edit_step w ids folder_) subdirs R <->
  x ∈ R \/ (x ∈ subdirs /\ x ∈ ids /\ flags w folder_ x).
Proof.
  induction subdirs as [|inst subdirs IH]; intros R x; cbn [fold_left].
  - split; [tauto|]. intros [H|(H & _)]; [exact H|]. inversion H.
  - rewrite IH, long_edit_step_elem, elem_of_cons. split.
    + intros [[H|(-> & H1 & H2)]|(H & H1 & H2)]; eauto 10.
    + intros [H|([->|H] & H1 & H2)]; eauto 10.
Qed.

Lemma long_edit_folders_elem w ids folders : forall R R',
  long_edit_folders w ids folders R = Ok R' ->
  forall x,
    x ∈ R' <->
    x ∈ R \/
    exists folder_ subdirs,
      folder_ ∈ folders /\ listdir w folder_ = Ok subdirs /\
      x ∈ subdirs /\ x ∈ ids /\ flags w folder_ x.
Proof.
  induction folders as [|f folders IH]; intros R R' H x; cbn in H.
  - inversion H; subst. split; [tauto|].
    intros [Hx|(f & sd & Hf & _)]; [exact Hx|inversion Hf].
  - destruct (listdir w f) as [subdirs|e] eqn:Hls; cbn in H; [|discriminate].
    rewrite (IH _ _ H x), long_edit_fold_elem. split.
    + intros [[Hx|(H1 & H2 & H3)]|(f' & sd & Hf & Hsd & H1 & H2 & H3)].
      * tauto.
      * right. exists f, subdirs. rewrite elem_of_cons. eauto 10.
      * right. exists f', sd. rewrite elem_of_cons. eauto 10.
    + intros [Hx|(f' & sd & Hf & Hsd & H1 & H2 & H3)]; [tauto|].
      apply elem_of_cons in Hf as [->|Hf].
      * rewrite Hls in Hsd. inversion Hsd; subst sd. tauto.
      * right. exists f', sd. eauto 10.
Qed.

Lemma long_edit_folders_ok w ids folders : forall R,
  (forall f, f ∈ folders -> is_ok (listdir w f) = true) ->
  exists R', long_edit_folders w ids folders R = Ok R'.
Proof.
  induction folders as [|f folders IH]; intros R Hok; cbn.
  - eauto.
  - pose proof (Hok f (list_elem_of_here _ _)) as Hf.
    destruct (listdir w f) as [subdirs|e]; [|discriminate]. cbn.
    apply IH. intros f' Hf'. apply Hok. by apply list_elem_of_further.
Qed.

(** C4: in mode [long_edit], for an instance directory listed in a
    trajectory folder and named in the dataset, a missing or unreadable
    prediction artifact flags the instance, and so does a patch with more
    than 40 added plus deleted lines; an instance whose patch has at most
    40 such lines is not flagged; an instance absent from the folder
    listings is never flagged, whatever the dataset holds. *)
Theorem C4_long_edit_flags w args (dataset_ids : gset string) :
  folder args <> [] ->
  (forall f, f ∈ folder args -> is_ok (listdir w f) = true) ->
  exists remove_ids,
    long_edit w args dataset_ids = Ok remove_ids /\
    (forall f subdirs inst,
       f ∈ folder args -> listdir w f = Ok subdirs ->
       inst ∈ subdirs -> inst ∈ dataset_ids ->
       (exists_ w (pred_path f inst) = false -> inst ∈ remove_ids) /\
       (read_pred w (pred_path f inst) = Unparsable -> inst ∈ remove_ids) /\
       (forall patch,
          read_pred w (pred_path f inst) = ModelPatch patch ->
          (40 < edit_size patch)%nat -> inst ∈ remove_ids)) /\
    (forall inst,
       (forall f subdirs,
          f ∈ folder args -> listdir w f = Ok subdirs -> inst ∈ subdirs ->
          exists patch,
            exists_ w (pred_path f inst) = true /\
            read_pred w (pred_path f inst) = ModelPatch patch /\
            (edit_size patch <= 40)%nat) ->
       inst ∉ remove_ids) /\
    (forall inst,
       (forall f subdirs,
          f ∈ folder args -> listdir w f = Ok subdirs -> inst ∉ subdirs) ->
       inst ∉ remove_ids).
Proof.
  intros Hne Hok.
  destruct (long_edit_folders_ok w dataset_ids (folder args) ∅ Hok)
    as (R & HR).
  assert (Hle : long_edit w args dataset_ids = Ok R).
  { unfold long_edit. destruct (folder args); [contradiction|exact HR]. }
  pose proof (long_edit_folders_elem _ _ _ _ _ HR) as Hel.
  exists R. split; [exact Hle|]. split; [|split].
  - intros f subdirs inst Hf Hls Hin Hid.
    assert (Hflag : flags w f inst -> inst ∈ R).
    { intros Hfl. apply Hel. right. exists f, subdirs. auto. }
    repeat split.
    + intros H. apply Hflag. left. exact H.
    + intros H. apply Hflag. right. left. exact H.
    + intros patch H Hsz. apply Hflag. right. right. exists patch. auto.
  - intros inst Hsmall Hin. apply Hel in Hin as [Hin|Hin]; [inversion Hin|].
    destruct Hin as (f & subdirs & Hf & Hls & Hin & _ & Hfl).
    destruct (Hsmall f subdirs Hf Hls Hin) as (patch & Hex & Hrd & Hsz).
    destruct Hfl as [H|[H|(q & H & Hq)]]; try congruence.
    rewrite Hrd in H. inversion H; subst q. unfold PATCH_EDIT_MAX in Hq. lia.
  - intros inst Habs Hin. apply Hel in Hin as [Hin|Hin]; [inversion Hin|].
    destruct Hin as (f & subdirs & Hf & Hls & Hin & _).
    exact (Habs f subdirs Hf Hls Hin).
Qed.

Lemma C4_long_edit_flags_witness :
  exists remove_ids,
    long_edit Samples.world_long_edit Samples.long_edit_args
      Samples.long_edit_ids = Ok remove_ids /\
    "a_1" ∈ remove_ids /\ "b_1" ∈ remove_ids /\ "c_1" ∈ remove_ids /\
    ("d_1" ∉ remove_ids) /\ ("unrelated_1" ∉ remove_ids).
Proof.
  destruct (C4_long_edit_flags Samples.world_long_edit Samples.long_edit_args
              Samples.long_edit_ids) as (R & HR & Hflag & Hsmall & Habs).
  - discriminate.
  - intros f Hf. apply list_elem_of_singleton in Hf as ->. reflexivity.
  - assert (Hf : "traj" ∈ folder Samples.long_edit_args)
      by (apply list_elem_of_singleton; reflexivity).
    assert (Hls : listdir Samples.world_long_edit "traj"
                  = Ok ["a_1"; "b_1"; "c_1"; "d_1"]) by reflexivity.
    assert (Hsub : forall x, In x ["a_1"; "b_1"; "c_1"; "d_1"] ->
                   x ∈ ["a_1"; "b_1"; "c_1"; "d_1"])
      by (intros x Hx; apply list_elem_of_In; exact Hx).
    assert (Hid : forall x,
              In x ["a_1"; "b_1"; "c_1"; "d_1"; "unrelated_1"] ->
              x ∈ Samples.long_edit_ids).
    { intros x Hx. unfold Samples.long_edit_ids.
      apply elem_of_list_to_set, list_elem_of_In. exact Hx. }
    exists R. split; [exact HR|]. repeat split.
    + apply (Hflag "traj" _ "a_1" Hf Hls); [apply Hsub|apply Hid| ];
        simpl; auto 10.
    + apply (Hflag "traj" _ "b_1" Hf Hls); [apply Hsub|apply Hid| ];
        simpl; auto 10.
    + apply (Hflag "traj" _ "c_1" Hf Hls) with (patch := Some Samples.long_patch);
        [apply Hsub; simpl; auto 10|apply Hid; simpl; auto 10|reflexivity|].
      vm_compute. lia.
    + apply Hsmall. intros f subdirs Hf' Hls' _.
      apply list_elem_of_singleton in Hf' as ->.
      exists (Some Samples.sample_diff). repeat split. vm_compute. lia.
    + apply Habs. intros f subdirs Hf' Hls' Hin.
      apply list_elem_of_singleton in Hf' as ->.
      rewrite Hls in Hls'. inversion Hls'; subst subdirs.
      apply list_elem_of_In in Hin. simpl in Hin.
      repeat (destruct Hin as [Hin|Hin]; [discriminate|]). exact Hin.
Defined.

(** ** [user_length] *)

Lemma user_tokens_uncounted msgs : forall n,
  (forall m, m ∈ msgs -> counted m = false) ->
  user_tokens msgs n = Ok n.
Proof.
  induction msgs as [|m msgs IH]; intros n Hun; cbn [user_tokens].
  - reflexivity.
  - pose proof (Hun m (list_elem_of_here _ _)) as Hm. unfold counted in Hm.
    destruct (String.eqb (role m) "user").
    + destruct (contains TARGET_PREFIX (content m)); [reflexivity|discriminate].
    + apply IH. intros m' Hm'. apply Hun. by apply list_elem_of_further.
Qed.

(** The loop of line 139 either adds nothing or stops on a [TypeError]. *)
Lemma user_tokens_outcome msgs : forall n,
  user_tokens msgs n = Ok n \/ user_tokens msgs n = Raise TypeError.
Proof.
  induction msgs as [|m msgs IH]; intros n; cbn [user_tokens].
  - left. reflexivity.
  - destruct (String.eqb (role m) "user"); [|apply IH].
    destruct (contains TARGET_PREFIX (content m)); [left|right]; reflexivity.
Qed.

Lemma user_tokens_counted msgs1 m msgs2 n :
  (forall m', m' ∈ msgs1 -> String.eqb (role m') "user" = false) ->
  counted m = true ->
  user_tokens (msgs1 ++ m :: msgs2) n = Raise TypeError.
Proof.
  intros Hpre Hm. induction msgs1 as [|m1 msgs1 IH]; cbn [app user_tokens].
  - unfold counted in Hm. destruct (String.eqb (role m) "user"); [|discriminate].
    destruct (contains TARGET_PREFIX (content m)); [discriminate|reflexivity].
  - rewrite (Hpre m1 (list_elem_of_here _ _)). apply IH.
    intros m' Hm'. apply Hpre. by apply list_elem_of_further.
Qed.

Lemma zero_average_not_above d f :
  truediv 0 d = Ok f -> float_gt_int f TOOL_CALL_TOKEN_MAX = false.
Proof.
  unfold truediv. destruct (d =? 0); [discriminate|].
  change (float_of_int 0) with (Ok (S754_zero false)). cbn.
  destruct (float_of_int d) as [y|e]; cbn; [|discriminate].
  intros [= <-]. destruct y as [s|s| |s m e]; try destruct s; reflexivity.
Qed.

(** Whenever the test of line 145 yields a value, the value is [False]. *)
Lemma user_length_test_false data b :
  user_length_test data = Ok b -> b = false.
Proof.
  unfold user_length_test.
  destruct (user_tokens_outcome (messages data) 0%nat) as [-> | ->];
    unfold mbind, result_bind; [|discriminate].
  change (Z.of_nat 0) with 0.
  destruct (truediv 0 (Z.of_nat (length (messages data)) / 2)) as [f|e] eqn:Hd;
    [|discriminate].
  intros [= <-]. exact (zero_average_not_above _ _ Hd).
Qed.

Lemma user_length_flags_nothing ds : forall R R',
  user_length ds R = Ok R' -> R' = R.
Proof.
  induction ds as [|d ds IH]; intros R R'; cbn [user_length].
  - congruence.
  - destruct (user_length_test d) as [b|e] eqn:Hd; cbn; [|discriminate].
    rewrite (user_length_test_false _ _ Hd). apply IH.
Qed.

Lemma small_half (n : nat) : (n <= 1)%nat -> Z.of_nat n / 2 = 0.
Proof. intros H. apply Z.div_small. lia. Qed.

(** C2: the trajectory of the design document's example, nine messages
    with four user messages of 100 tokens each, should average
    [400 / 4 = 100] and stay unflagged.  The code never gets there: line
    143 calls [count_tokens] with the message content alone, and the run
    stops on a [TypeError] at the first user message. *)
Theorem C2_user_length_call_raises :
  length (messages Samples.traj9) = 9%nat /\
  length (List.filter counted (messages Samples.traj9)) = 4%nat /\
  (forall m, In m (messages Samples.traj9) ->
     count_tokens Samples.tok100 (content m) = 100%nat) /\
  user_length_test Samples.traj9 = Raise TypeError /\
  main (Samples.world_of [Samples.traj9] false) Samples.tok100
    Samples.user_length_args = (Raise TypeError, []).
Proof.
  split; [reflexivity|]. split; [reflexivity|]. split; [|split; reflexivity].
  intros m _. reflexivity.
Qed.

(** C3 as worded fails: a trajectory without messages makes the division
    of line 145 raise. *)
Lemma C3_empty_trajectory_raises :
  (length (messages Samples.traj0) <= 1)%nat /\
  user_length_test Samples.traj0 = Raise ZeroDivisionError /\
  main (Samples.world_of [Samples.traj0] false) Samples.tok100
    Samples.user_length_args = (Raise ZeroDivisionError, []).
Proof. split; [simpl; lia|split; reflexivity]. Qed.

(** C3, as the code has it: nothing guards the zero denominator.  A
    trajectory with no message, or with a single message that is not
    token-counted, raises [ZeroDivisionError] at line 145, and the whole
    run of [main] stops on it before anything is written. *)
Theorem C3_zero_denominator_unguarded (data : Trajectory) :
  (length (messages data) <= 1)%nat ->
  (forall m, m ∈ messages data -> counted m = false) ->
  user_length_test data = Raise ZeroDivisionError /\
  (forall rest R, user_length (data :: rest) R = Raise ZeroDivisionError) /\
  (forall w tokenizer args rest,
     dataset args <> [] ->
     load_datasets w (dataset args) = Ok (data :: rest) ->
     filter_mode args = Some "user_length" ->
     main w tokenizer args = (Raise ZeroDivisionError, [])).
Proof.
  intros Hlen Hun.
  assert (Ht : user_length_test data = Raise ZeroDivisionError).
  { unfold user_length_test.
    rewrite (user_tokens_uncounted _ _ Hun), (small_half _ Hlen). reflexivity. }
  split; [exact Ht|]. split.
  - intros rest R. cbn [user_length]. rewrite Ht. reflexivity.
  - intros w tokenizer args rest Hne Hld Hmode.
    unfold main, select. destruct (dataset args) eqn:Hd; [contradiction|].
    rewrite Hld, Hmode. cbn. rewrite Ht. reflexivity.
Qed.

Lemma C3_zero_denominator_unguarded_witness :
  user_length_test Samples.traj0 = Raise ZeroDivisionError.
Proof.
  apply (C3_zero_denominator_unguarded Samples.traj0).
  - simpl. lia.
  - intros m Hm. inversion Hm.
Defined.

End FilterFacts.

(* ===================================================================== *)
(** * Properties of the scaler *)
(* ===================================================================== *)

Module ScaleFacts.
Import Scale.

(** ** The target number *)

(** Truncation and the exact comparison agree on a positive float. *)
Lemma trunc_vs_compare m e T :
  match compare_float_int (S754_finite false m e) T with
  | Some Gt => T <= Z.shiftl (Z.pos m) e
  | _ => Z.shiftl (Z.pos m) e <= T
  end.
Proof.
  unfold compare_float_int, cond_Zopp.
  destruct (Z.leb_spec 0 e) as [He|He].
  - rewrite Z.shiftl_mul_pow2 by exact He.
    destruct (Z.compare_spec (Z.pos m * 2 ^ e) T); lia.
  - rewrite Z.shiftl_div_pow2 by lia.
    assert (Hp : 0 < 2 ^ (- e)) by (apply Z.pow_pos_nonneg; lia).
    destruct (Z.compare_spec (Z.pos m) (T * 2 ^ (- e))).
    + apply Z.div_le_upper_bound; lia.
    + apply Z.div_le_upper_bound; lia.
    + apply Z.div_le_lower_bound; lia.
Qed.

Lemma negative_below s m e z :
  0 <= z -> s = true ->
  compare_float_int (S754_finite s m e) z = Some Lt.
Proof.
  intros Hz ->. unfold compare_float_int, cond_Zopp.
  destruct (Z.leb_spec 0 e) as [He|He]; f_equal; apply Z.compare_lt_iff.
  - assert (0 < 2 ^ e) by (apply Z.pow_pos_nonneg; lia). nia.
  - assert (0 < 2 ^ (- e)) by (apply Z.pow_pos_nonneg; lia). nia.
Qed.

Lemma target_absolute (n : float) (total : nat) :
  float_ge_int n 1 = true ->
  target_number n total =
  match int_of_float n with
  | Ok k => Ok (Z.min k (Z.of_nat total))
  | Raise _ => Ok (Z.of_nat total)
  end.
Proof.
  intros Hge. unfold target_number.
  assert (Hlt : float_lt_int n 1 = false).
  { unfold float_ge_int in Hge. unfold float_lt_int.
    destruct (compare_float_int n 1) as [[]|]; congruence. }
  rewrite Hlt, andb_false_r.
  destruct n as [s|s| |s m e].
  - discriminate.
  - destruct s; [discriminate|reflexivity].
  - discriminate.
  - destruct s.
    + unfold float_ge_int in Hge.
      rewrite (negative_below true m e 1) in Hge by (lia || reflexivity).
      discriminate.
    + pose proof (trunc_vs_compare m e (Z.of_nat total)) as Hc.
      unfold float_gt_int, int_of_float, cond_Zopp.
      destruct (compare_float_int (S754_finite false m e) (Z.of_nat total))
        as [[]|]; f_equal; lia.
Qed.

Lemma target_proportion (n : float) (total : nat) :
  float_gt_int n 0 = true -> float_lt_int n 1 = true ->
  target_number n total =
  (len ← float_of_int (Z.of_nat total); int_of_float (fmul n len)).
Proof.
  intros Hgt Hlt. unfold target_number.
  destruct total as [|t].
  - change (Z.of_nat 0) with 0. rewrite Hgt.
    destruct n as [s|s| |s m e]; try discriminate;
      [destruct s; discriminate|reflexivity].
  - assert (Hbig : float_gt_int n (Z.of_nat (S t)) = false).
    { destruct n as [s|s| |s m e]; try discriminate.
      - destruct s; discriminate.
      - destruct s.
        + unfold float_gt_int.
          rewrite (negative_below true m e (Z.of_nat (S t))) by (lia || reflexivity).
          reflexivity.
        + unfold float_lt_int, float_gt_int, compare_float_int, cond_Zopp in *.
          destruct (Z.leb_spec 0 e) as [He|He].
          * assert (0 < 2 ^ e) by (apply Z.pow_pos_nonneg; lia).
            destruct (Z.compare_spec (Z.pos m * 2 ^ e) 1); try discriminate. nia.
          * assert (0 < 2 ^ (- e)) by (apply Z.pow_pos_nonneg; lia).
            destruct (Z.compare_spec (Z.pos m) (1 * 2 ^ (- e))); try discriminate.
            destruct (Z.compare_spec (Z.pos m) (Z.of_nat (S t) * 2 ^ (- e)));
              try reflexivity. nia. }
    rewrite Hbig, Hgt, Hlt. cbn [andb].
    destruct (float_of_int (Z.of_nat (S t))); reflexivity.
Qed.

(** C9: a target [n >= 1] is an absolute count, truncated to an integer and
    clamped to the corpus size (an infinite [n] is the corpus size); a
    target [0 < n < 1] is a proportion: [n] is multiplied by the corpus size
    and the product truncated; [n = 0.25] on 400 trajectories gives 100. *)
Theorem C9_target_number :
  (forall (n : float) (total : nat),
     float_ge_int n 1 = true ->
     target_number n total =
     match int_of_float n with
     | Ok k => Ok (Z.min k (Z.of_nat total))
     | Raise _ => Ok (Z.of_nat total)
     end) /\
  (forall (n : float) (total : nat),
     float_gt_int n 0 = true -> float_lt_int n 1 = true ->
     target_number n total =
     (len ← float_of_int (Z.of_nat total); int_of_float (fmul n len))) /\
  target_number (float_lit 1 (-2)) 400 = Ok 100.
Proof.
  split; [exact target_absolute|]. split; [exact target_proportion|].
  reflexivity.
Qed.

(** The product is the rounded one: [0.7 * 10] is [7.0] in binary64,
    although the float written [0.7] is below seven tenths. *)
Example proportion_is_rounded :
  target_number (float_lit 0x16666666666666 (-53)) 10 = Ok 7.
Proof. reflexivity. Qed.

Lemma C9_target_number_witness :
  target_number (float_lit 5 (-1)) 10 = Ok 2 /\
  target_number (float_lit 7 0) 3 = Ok 3 /\
  target_number (float_lit 1 (-2)) 400 = Ok 100.
Proof.
  split; [|split].
  - apply (proj1 C9_target_number (float_lit 5 (-1)) 10%nat). reflexivity.
  - apply (proj1 C9_target_number (float_lit 7 0) 3%nat). reflexivity.
  - rewrite (proj1 (proj2 C9_target_number) (float_lit 1 (-2)) 400%nat);
      reflexivity.
Defined.

(** ** [scale_repos] *)

Lemma split_nonempty sep s : split sep s <> [].
Proof.
  destruct s as [|c s]; cbn; [discriminate|].
  destruct (Ascii.eqb c sep); [discriminate|].
  destruct (split sep s); discriminate.
Qed.

Lemma join_split s : join "_" (split "_"%char s) = s.
Proof.
  induction s as [|c s IH]; [reflexivity|]. cbn [split].
  destruct (Ascii.eqb_spec c "_"%char) as [->|Hc].
  - destruct (split "_"%char s) as [|w ws] eqn:Hs.
    + exfalso. exact (split_nonempty _ _ Hs).
    + change (join "_" (EmptyString :: w :: ws)) with (String "_"%char (join "_" (w :: ws))).
      rewrite IH. reflexivity.
  - destruct (split "_"%char s) as [|w ws] eqn:Hs.
    + exfalso. exact (split_nonempty _ _ Hs).
    + rewrite <- IH. destruct ws; reflexivity.
Qed.

(** The key of line 57 is the [instance_id] without its last character. *)
Lemma repo_name_drop_last data :
  repo_name data = drop_last (instance_id data).
Proof. unfold repo_name. rewrite join_split. reflexivity. Qed.

Lemma dict_get_keys m k :
  k ∈ map fst m -> exists v, dict_get m k = Ok v.
Proof.
  induction m as [|[k' v] m IH]; cbn; intros Hk.
  - inversion Hk.
  - destruct (String.eqb_spec k k') as [->|Hne]; [eauto|].
    apply elem_of_cons in Hk as [Hk|Hk]; [contradiction|auto].
Qed.

Lemma dict_get_not_keys m k :
  k ∉ map fst m -> dict_get m k = Raise KeyError.
Proof.
  induction m as [|[k' v] m IH]; cbn; intros Hk; [reflexivity|].
  rewrite not_elem_of_cons in Hk. destruct Hk as [Hne Hk].
  destruct (String.eqb_spec k k'); [contradiction|auto].
Qed.

Lemma dict_append_get m k data k' :
  dict_get (dict_append m k data) k' =
  if String.eqb k' k
  then Ok (match dict_get m k with Ok v => v ++ [data] | Raise _ => [data] end)
  else dict_get m k'.
Proof.
  induction m as [|[k0 v] m IH]; cbn.
  - destruct (String.eqb k' k); reflexivity.
  - destruct (String.eqb_spec k k0) as [->|Hne]; cbn.
    + destruct (String.eqb_spec k' k0); reflexivity.
    + rewrite IH. destruct (String.eqb_spec k' k0) as [->|Hne'].
      * destruct (String.eqb_spec k0 k); [congruence|reflexivity].
      * reflexivity.
Qed.

Lemma dict_append_keys m k data :
  map fst (dict_append m k data) =
  if bool_decide (k ∈ map fst m) then map fst m else map fst m ++ [k].
Proof.
  induction m as [|[k0 v] m IH]; cbn.
  - reflexivity.
  - destruct (String.eqb_spec k k0) as [->|Hne]; cbn.
    + rewrite bool_decide_eq_true_2 by apply list_elem_of_here. reflexivity.
    + rewrite IH. destruct (bool_decide (k ∈ map fst m)) eqn:Hin.
      * apply bool_decide_eq_true in Hin.
        rewrite bool_decide_eq_true_2 by (by apply list_elem_of_further).
        reflexivity.
      * apply bool_decide_eq_false in Hin.
        rewrite bool_decide_eq_false_2; [reflexivity|].
        rewrite not_elem_of_cons. auto.
Qed.

(** The dictionary built from a dataset: its keys are distinct, and a key
    holds its whole bucket, in dataset order. *)
Definition dict_of (m : repo_dict) (ds : list Trajectory) : Prop :=
  NoDup (map fst m) /\
  forall k, dict_get m k =
            match bucket ds k with [] => Raise KeyError | b => Ok b end.

Lemma bucket_snoc ds data k :
  bucket (ds ++ [data]) k =
  bucket ds k ++ (if String.eqb k (repo_name data) then [data] else []).
Proof.
  unfold bucket. rewrite filter_app. f_equal.
  rewrite repo_name_drop_last.
  destruct (String.eqb_spec k (drop_last (instance_id data))) as [->|Hne].
  - rewrite filter_cons_True by reflexivity. reflexivity.
  - rewrite filter_cons_False by congruence. reflexivity.
Qed.

Lemma dict_of_step m ds data :
  dict_of m ds -> dict_of (dict_append m (repo_name data) data) (ds ++ [data]).
Proof.
  intros [Hnd Hget]. split.
  - rewrite dict_append_keys.
    destruct (bool_decide (repo_name data ∈ map fst m)) eqn:Hin; [exact Hnd|].
    apply bool_decide_eq_false in Hin.
    apply NoDup_app. split; [exact Hnd|]. split.
    + intros x Hx Hx'. apply list_elem_of_singleton in Hx'. subst x. contradiction.
    + apply NoDup_singleton.
  - intros k. rewrite dict_append_get, bucket_snoc.
    destruct (String.eqb_spec k (repo_name data)) as [->|Hne].
    + rewrite Hget. destruct (bucket ds (repo_name data)); reflexivity.
    + rewrite Hget, app_nil_r. reflexivity.
Qed.

Lemma dict_of_fold ds : forall m pre,
  dict_of m pre ->
  dict_of (fold_left (fun m data => dict_append m (repo_name data) data) ds m)
          (pre ++ ds).
Proof.
  induction ds as [|d ds IH]; intros m pre Hm; cbn [fold_left].
  - rewrite app_nil_r. exact Hm.
  - replace (pre ++ d :: ds) with ((pre ++ [d]) ++ ds)
      by (rewrite <- app_assoc; reflexivity).
    apply IH, dict_of_step, Hm.
Qed.

Lemma group_by_repo_dict ds : dict_of (group_by_repo ds) ds.
Proof.
  apply (dict_of_fold ds [] []). split; [constructor|]. intros k. reflexivity.
Qed.

Lemma dict_of_keys m ds k :
  dict_of m ds ->
  (k ∈ map fst m <-> exists d, d ∈ ds /\ drop_last (instance_id d) = k).
Proof.
  intros [_ Hget]. specialize (Hget k). split.
  - intros Hk. destruct (dict_get_keys _ _ Hk) as (v & Hv).
    rewrite Hv in Hget. destruct (bucket ds k) as [|d b] eqn:Hb; [discriminate|].
    assert (Hin : d ∈ bucket ds k) by (rewrite Hb; apply list_elem_of_here).
    apply list_elem_of_filter in Hin as [Hkey Hin]. exists d. split; assumption.
  - intros (d & Hd & Hk). destruct (decide (k ∈ map fst m)) as [|Hn]; [assumption|].
    rewrite (dict_get_not_keys _ _ Hn) in Hget.
    assert (Hin : d ∈ bucket ds k)
      by (apply list_elem_of_filter; split; assumption).
    destruct (bucket ds k); [inversion Hin|discriminate].
Qed.

Lemma dict_of_get m ds k :
  dict_of m ds -> k ∈ map fst m -> dict_get m k = Ok (bucket ds k).
Proof.
  intros Hm Hk. destruct (dict_get_keys _ _ Hk) as (v & Hv).
  destruct Hm as [_ Hget]. rewrite Hget in Hv |- *.
  destruct (bucket ds k); [discriminate|reflexivity].
Qed.

(** The loop of line 65 appends whole buckets along a prefix of the order,
    and stops at the first repository met with [number] reached. *)
Lemma add_repos_prefix m ds number (Hm : dict_of m ds) : forall order new,
  (forall k, k ∈ order -> k ∈ map fst m) ->
  exists visited rest,
    order = visited ++ rest /\
    add_repos m number order new = Ok (new ++ flat_map (bucket ds) visited) /\
    (rest <> [] ->
     number <= Z.of_nat (length (new ++ flat_map (bucket ds) visited))) /\
    (forall v1 k v2, visited = v1 ++ k :: v2 ->
       Z.of_nat (length (new ++ flat_map (bucket ds) v1)) < number).
Proof.
  induction order as [|k order IH]; intros new Hkeys; cbn [add_repos].
  - exists [], []. cbn [flat_map]. rewrite !app_nil_r.
    split; [reflexivity|]. split; [reflexivity|]. split; [congruence|].
    intros [|? ?] ? ? H; discriminate.
  - rewrite (dict_of_get _ _ _ Hm (Hkeys k (list_elem_of_here _ _))). cbn.
    destruct (Z.ltb_spec (Z.of_nat (length new)) number) as [Hlt|Hge].
    + destruct (IH (new ++ bucket ds k)) as (visited & rest & -> & Hrun & Hstop & Hpre).
      { intros k' Hk'. apply Hkeys. by apply list_elem_of_further. }
      exists (k :: visited), rest. cbn [flat_map]. rewrite app_assoc.
      split; [reflexivity|]. split; [exact Hrun|]. split; [exact Hstop|].
      intros [|k1 v1] k' v2 Hv; cbn [app flat_map] in *.
      * rewrite app_nil_r. exact Hlt.
      * injection Hv as -> ->. rewrite app_assoc. eapply Hpre. reflexivity.
    + exists [], (k :: order). cbn [flat_map]. rewrite app_nil_r.
      split; [reflexivity|]. split; [reflexivity|]. split; [intros _; exact Hge|].
      intros [|? ?] ? ? H; discriminate.
Qed.

Lemma bucket_of_bucket ds k k' :
  filter (fun d => drop_last (instance_id d) = k) (bucket ds k') =
  if bool_decide (k = k') then bucket ds k else [].
Proof.
  unfold bucket. induction ds as [|d ds IH].
  - destruct (bool_decide (k = k')); reflexivity.
  - destruct (decide (drop_last (instance_id d) = k')) as [H1|H1].
    + rewrite (filter_cons_True (fun d => drop_last (instance_id d) = k') d ds H1).
      destruct (decide (drop_last (instance_id d) = k)) as [H2|H2].
      * rewrite !(filter_cons_True (fun d => drop_last (instance_id d) = k) d _ H2).
        rewrite IH. rewrite bool_decide_eq_true_2 by congruence. reflexivity.
      * rewrite !(filter_cons_False (fun d => drop_last (instance_id d) = k) d _ H2).
        exact IH.
    + rewrite (filter_cons_False (fun d => drop_last (instance_id d) = k') d ds H1).
      rewrite IH. destruct (bool_decide (k = k')) eqn:Hb; [|reflexivity].
      apply bool_decide_eq_true in Hb. subst k'.
      rewrite (filter_cons_False (fun d => drop_last (instance_id d) = k) d ds H1).
      reflexivity.
Qed.

(** No repository appears partially in a concatenation of buckets. *)
Lemma whole_buckets ds visited k :
  NoDup visited ->
  filter (fun d => drop_last (instance_id d) = k) (flat_map (bucket ds) visited) =
  if bool_decide (k ∈ visited) then bucket ds k else [].
Proof.
  induction visited as [|k' visited IH]; intros Hnd; cbn [flat_map].
  - reflexivity.
  - apply NoDup_cons in Hnd as [Hk' Hnd].
    rewrite filter_app, bucket_of_bucket, (IH Hnd).
    destruct (bool_decide (k = k')) eqn:Hb.
    + apply bool_decide_eq_true in Hb. subst k'.
      rewrite (bool_decide_eq_false_2 _ Hk'), app_nil_r.
      rewrite bool_decide_eq_true_2 by apply list_elem_of_here. reflexivity.
    + apply bool_decide_eq_false in Hb. cbn [app].
      destruct (bool_decide (k ∈ visited)) eqn:Hv.
      * apply bool_decide_eq_true in Hv.
        rewrite bool_decide_eq_true_2 by (by apply list_elem_of_further).
        reflexivity.
      * apply bool_decide_eq_false in Hv.
        rewrite bool_decide_eq_false_2; [reflexivity|].
        rewrite not_elem_of_cons. auto.
Qed.

(** C7: the repo strategy groups the trajectories by their [instance_id]
    with its final character dropped, visits the groups in a random order
    and appends whole groups, stopping once the accumulated size reaches or
    exceeds [n]; so the output is a union of entire repository groups, no
    repository appears partially, and the size may exceed [n]. *)
Theorem C7_scale_repos_whole_groups :
  (forall (R : RandomSource) (dataset : list Trajectory) (n : Z) (g : rng),
     exists visited rest out,
       NoDup (visited ++ rest) /\
       (forall k, k ∈ visited ++ rest <->
                  exists d, d ∈ dataset /\ drop_last (instance_id d) = k) /\
       (scale_repos dataset n g).1 = Ok out /\
       out = flat_map (bucket dataset) visited /\
       (forall v1 k v2, visited = v1 ++ k :: v2 ->
          Z.of_nat (length (flat_map (bucket dataset) v1)) < n) /\
       (rest <> [] -> n <= Z.of_nat (length out)) /\
       (forall k,
          filter (fun d => drop_last (instance_id d) = k) out =
          if bool_decide (k ∈ visited) then bucket dataset k else [])) /\
  (exists out,
     (@scale_repos Samples.in_order Samples.two_repos 2 ()).1 = Ok out /\
     2 < Z.of_nat (length out)).
Proof.
  split.
  - intros R dataset n g. unfold scale_repos.
    pose proof (group_by_repo_dict dataset) as Hm.
    pose proof (shuffle_perm _ (map fst (group_by_repo dataset)) g) as Hp.
    destruct (shuffle (map fst (group_by_repo dataset)) g) as [order g'].
    cbn [fst] in Hp. cbn [fst].
    destruct (add_repos_prefix _ _ n Hm order []) as
      (visited & rest & -> & Hrun & Hstop & Hpre).
    { intros k Hk. rewrite <- Hp. exact Hk. }
    cbn [app] in Hrun, Hstop, Hpre.
    assert (Hnd : NoDup (visited ++ rest)).
    { rewrite Hp. apply Hm. }
    exists visited, rest, (flat_map (bucket dataset) visited).
    split; [exact Hnd|]. split.
    { intros k. rewrite Hp. apply dict_of_keys, Hm. }
    split; [exact Hrun|]. split; [reflexivity|]. split; [exact Hpre|].
    split; [exact Hstop|].
    intros k. apply whole_buckets. apply NoDup_app in Hnd. apply Hnd.
  - eexists. split; [reflexivity|]. simpl. lia.
Qed.

(** ** [scale_tokens] *)

Lemma insert_desc_perm x l : Permutation (insert_desc x l) (x :: l).
Proof.
  induction l as [|y l IH]; cbn; [reflexivity|].
  destruct (Qle_bool (fst y) (fst x)); [reflexivity|].
  rewrite IH. apply perm_swap.
Qed.

Lemma sorted_desc_perm l : Permutation (sorted_desc l) l.
Proof.
  induction l as [|x l IH]; cbn; [reflexivity|].
  rewrite insert_desc_perm, IH. reflexivity.
Qed.

Lemma insert_desc_sorted x l :
  StronglySorted ratio_ge l -> StronglySorted ratio_ge (insert_desc x l).
Proof.
  induction 1 as [|y l Hs IH Hy]; cbn.
  - constructor; constructor.
  - destruct (Qle_bool (fst y) (fst x)) eqn:Hle.
    + apply Qle_bool_iff in Hle. constructor; [constructor; assumption|].
      constructor; [exact Hle|].
      eapply List.Forall_impl; [|exact Hy].
      intros z Hz. unfold ratio_ge in *. eapply Qle_trans; eassumption.
    + constructor; [exact IH|].
      apply (Permutation_Forall (Permutation_sym (insert_desc_perm x l))).
      constructor; [|exact Hy].
      unfold ratio_ge. apply Qlt_le_weak, Qnot_le_lt.
      intros Hc. apply Qle_bool_iff in Hc. congruence.
Qed.

Lemma sorted_desc_sorted l : StronglySorted ratio_ge (sorted_desc l).
Proof.
  induction l as [|x l IH]; cbn; [constructor|].
  apply insert_desc_sorted, IH.
Qed.

Lemma index_nil {A} (i : Z) : index (@nil A) i = Raise IndexError.
Proof.
  unfold index. cbn [length]. change (Z.of_nat 0) with 0.
  destruct (i <? 0); rewrite ?Z.add_0_l;
    destruct (Z.leb_spec 0 i), (Z.ltb_spec i 0); cbn; try reflexivity; lia.
Qed.

Lemma index_in_range {A} (l : list A) (i : Z) :
  - Z.of_nat (length l) <= i < Z.of_nat (length l) ->
  exists x, index l i = Ok x.
Proof.
  intros Hi. unfold index.
  set (j := if i <? 0 then Z.of_nat (length l) + i else i).
  assert (Hj : 0 <= j < Z.of_nat (length l)).
  { unfold j. destruct (Z.ltb_spec i 0); lia. }
  destruct (Z.leb_spec 0 j); [|lia].
  destruct (Z.ltb_spec j (Z.of_nat (length l))); [|lia]. cbn [andb].
  destruct (nth_error l (Z.to_nat j)) eqn:Hn; [eauto|].
  apply nth_error_None in Hn. lia.
Qed.

Lemma slice_to_capped {A} (l : list A) (n : Z) (len : nat) :
  0 <= n -> (length l <= len)%nat ->
  slice_to l (Z.min n (Z.of_nat len)) = firstn (Z.to_nat n) l.
Proof.
  intros Hn Hl. unfold slice_to.
  destruct (Z.ltb_spec (Z.min n (Z.of_nat len)) 0); [lia|].
  destruct (Z.le_ge_cases n (Z.of_nat len)).
  - rewrite Z.min_l by assumption. reflexivity.
  - rewrite Z.min_r by assumption. rewrite !firstn_all2 by lia. reflexivity.
Qed.

Lemma filter_all {A} (P : A -> Prop) `{forall x, Decision (P x)} (l : list A) :
  Forall P l -> filter P l = l.
Proof.
  induction 1 as [|x l Hx Hl IH]; [reflexivity|].
  rewrite filter_cons_True by exact Hx. rewrite IH. reflexivity.
Qed.

(** What [scale_tokens] returns under a threshold: the sorted records are
    filtered and capped, unless there is no record at all. *)
Lemma scale_tokens_threshold_run (R : RandomSource) c dataset n t (g : rng) :
  0 <= n ->
  Forall (fun tup => (0 <= fst tup)%Q) (token_to_data_tuples c dataset) ->
  exists sorted,
    Permutation sorted (token_to_data_tuples c dataset) /\
    StronglySorted ratio_ge sorted /\
    (scale_tokens c dataset n (Some t) g).1 =
    match sorted with
    | [] => Raise IndexError
    | _ => Ok (firstn (Z.to_nat n)
                 (map snd (filter (fun tup => Qle_bool t (fst tup)) sorted)))
    end.
Proof.
  intros Hn Hpos. unfold scale_tokens.
  pose proof (shuffle_perm _ (token_to_data_tuples c dataset) g) as Hp.
  destruct (shuffle (token_to_data_tuples c dataset) g) as [sh g'].
  cbn [fst] in *.
  pose proof (sorted_desc_perm sh) as Hsp.
  exists (sorted_desc sh).
  split; [rewrite Hsp; exact Hp|]. split; [apply sorted_desc_sorted|].
  rewrite <- (Permutation_length Hsp).
  assert (HposS : Forall (fun tup => (0 <= fst tup)%Q) (sorted_desc sh)).
  { eapply Permutation_Forall; [|exact Hpos]. symmetry. rewrite Hsp. exact Hp. }
  destruct (sorted_desc sh) as [|r S'].
  { rewrite index_nil. reflexivity. }
  remember (r :: S') as S eqn:HS.
  assert (Hlen : (0 < length S)%nat) by (subst S; cbn; lia).
  destruct (index_in_range S 0) as (x0 & ->); [lia|].
  destruct (index_in_range S (Z.min n (Z.of_nat (length S)) - 1)) as (x1 & ->);
    [lia|].
  cbn. destruct (Qeq_bool t 0) eqn:Ht.
  - apply Qeq_bool_iff in Ht.
    rewrite slice_to_capped by (rewrite ?length_map; lia).
    rewrite filter_all.
    + subst S. reflexivity.
    + eapply List.Forall_impl; [|exact HposS].
      intros tup Htup. apply Is_true_true, Qle_bool_iff. rewrite Ht. exact Htup.
  - rewrite slice_to_capped.
    + subst S. reflexivity.
    + exact Hn.
    + rewrite length_map. apply length_filter.
Qed.

(** C8, as the code has it: for a target [n >= 0] and ratios that are
    never negative, under a supplied threshold [t] the tokens strategy
    sorts the records descending by ratio, keeps those with ratio at least
    [t] and caps the result at [n]: every output trajectory comes from a
    record with ratio at least [t], and the output has at most [n]
    elements. *)
Theorem C8_scale_tokens_threshold (R : RandomSource) (c : Collaborators)
    (dataset : list Trajectory) (n : Z) (t : Q) (g : rng) :
  0 <= n ->
  Forall (fun tup => (0 <= fst tup)%Q) (token_to_data_tuples c dataset) ->
  exists sorted,
    Permutation sorted (token_to_data_tuples c dataset) /\
    StronglySorted ratio_ge sorted /\
    (token_to_data_tuples c dataset <> [] ->
     (scale_tokens c dataset n (Some t) g).1 =
     Ok (firstn (Z.to_nat n)
           (map snd (filter (fun tup => Qle_bool t (fst tup)) sorted)))) /\
    (forall out,
       (scale_tokens c dataset n (Some t) g).1 = Ok out ->
       out = firstn (Z.to_nat n)
               (map snd (filter (fun tup => Qle_bool t (fst tup)) sorted)) /\
       Z.of_nat (length out) <= n /\
       forall seq, seq ∈ out ->
         exists ratio,
           (ratio, seq) ∈ token_to_data_tuples c dataset /\ (t <= ratio)%Q).
Proof.
  intros Hn Hpos.
  destruct (scale_tokens_threshold_run R c dataset n t g Hn Hpos)
    as (sorted & Hperm & Hsorted & Hrun).
  exists sorted. split; [exact Hperm|]. split; [exact Hsorted|]. split.
  - intros Hne. rewrite Hrun. destruct sorted; [|reflexivity].
    apply Permutation_nil in Hperm. contradiction.
  - intros out Hout. rewrite Hrun in Hout.
    destruct sorted as [|r sorted'] eqn:Hs; [discriminate|].
    rewrite <- Hs in *. injection Hout as <-.
    split; [reflexivity|]. split.
    + pose proof (firstn_le_length (Z.to_nat n)
        (map snd (filter (fun tup => Qle_bool t (fst tup)) sorted))). lia.
    + intros seq Hseq. apply (subseteq_take (Z.to_nat n)) in Hseq.
      apply list_elem_of_In, in_map_iff in Hseq as ([ratio seq'] & Heq & Hin).
      cbn in Heq. subst seq'.
      apply list_elem_of_In, list_elem_of_filter in Hin as [Hle Hin].
      exists ratio. split.
      * rewrite <- Hperm. exact Hin.
      * apply Qle_bool_iff, Is_true_true. exact Hle.
Qed.

Lemma C8_scale_tokens_threshold_witness :
  exists out,
    (@scale_tokens Samples.in_order Samples.by_id_length
       [Samples.traj "django_12"; Samples.traj "a_1"; Samples.traj "flask_12345"]
       5 (Some (9 # 10)) ()).1 = Ok out /\
    Z.of_nat (length out) <= 5 /\
    forall seq, seq ∈ out ->
      exists ratio,
        (ratio, seq) ∈ Scale.token_to_data_tuples Samples.by_id_length
          [Samples.traj "django_12"; Samples.traj "a_1"; Samples.traj "flask_12345"]
        /\ (9 # 10 <= ratio)%Q.
Proof.
  destruct (C8_scale_tokens_threshold Samples.in_order Samples.by_id_length
    [Samples.traj "django_12"; Samples.traj "a_1"; Samples.traj "flask_12345"]
    5 (9 # 10) ()) as (sorted & _ & _ & Hrun & Hout).
  - lia.
  - repeat constructor; vm_compute; discriminate.
  - eexists. split; [apply Hrun; discriminate|].
    apply (Hout _ (Hrun ltac:(discriminate))).
Defined.

(** C8 as worded fails for a negative target: with [n = -1] and a
    threshold of one half, two of three records pass the threshold and the
    slice [[:number]] drops the last of them; one trajectory is returned,
    more than [n]. *)
Lemma C8_negative_target_exceeds :
  exists out,
    (@scale_tokens Samples.in_order Samples.by_id_length
       [Samples.traj "django_12"; Samples.traj "a_1"; Samples.traj "flask_12345"]
       (-1) (Some (1 # 2)) ()).1 = Ok out /\
    length out = 1%nat /\
    ~ (Z.of_nat (length out) <= -1).
Proof.
  eexists. split; [vm_compute; reflexivity|].
  split; [reflexivity|]. simpl. lia.
Qed.

End ScaleFacts.

(* ===================================================================== *)
(** * The destination of the curation tools *)
(* ===================================================================== *)

Module DestinationFacts.

(** ** An empty selection *)

Lemma sample_none (R : Scale.RandomSource) {A} (l : list A) (g : Scale.rng) :
  (Scale.sample l 0 g).1 = [].
Proof.
  destruct (Scale.sample_perm A l 0%nat g) as [Hlen _]; [lia|].
  destruct (Scale.sample l 0 g).1; [reflexivity|discriminate].
Qed.

Lemma target_zero (total : nat) :
  Scale.target_number (S754_zero false) total = Ok 0.
Proof.
  unfold Scale.target_number, float_gt_int, float_lt_int, compare_float_int.
  destruct (Z.compare_spec 0 (Z.of_nat total)); try reflexivity. lia.
Qed.

(** A threshold above every ratio leaves nothing to select. *)
Lemma tokens_all_excluded (R : Scale.RandomSource) c dataset n t
    (g : Scale.rng) out :
  Forall (fun tup => (0 <= fst tup)%Q /\ (fst tup < t)%Q)
    (Scale.token_to_data_tuples c dataset) ->
  (Scale.scale_tokens c dataset n (Some t) g).1 = Ok out ->
  out = [].
Proof.
  intros Hall. unfold Scale.scale_tokens.
  pose proof (Scale.shuffle_perm _ (Scale.token_to_data_tuples c dataset) g) as Hp.
  destruct (Scale.shuffle (Scale.token_to_data_tuples c dataset) g) as [sh g'].
  cbn [fst] in *.
  assert (HallS : Forall (fun tup => (0 <= fst tup)%Q /\ (fst tup < t)%Q)
                    (Scale.sorted_desc sh)).
  { eapply Permutation_Forall; [|exact Hall].
    symmetry. rewrite ScaleFacts.sorted_desc_perm. exact Hp. }
  destruct (Scale.sorted_desc sh) as [|r S'].
  { rewrite ScaleFacts.index_nil. discriminate. }
  remember (r :: S') as S eqn:HS.
  destruct (index S 0); [|discriminate].
  destruct (index S (Z.min n (Z.of_nat (length sh)) - 1)); [|discriminate].
  cbn.
  assert (Ht : Qeq_bool t 0 = false).
  { destruct (Qeq_bool t 0) eqn:E; [|reflexivity].
    apply Qeq_bool_iff in E. subst S. apply Forall_cons in HallS as [[H0 H1] _].
    rewrite E in H1. exfalso. exact (Qlt_not_le _ _ H1 H0). }
  rewrite Ht. intros [= <-].
  assert (Hf : filter (fun tup => Qle_bool t (fst tup)) S = []).
  { clear -HallS. induction HallS as [|x l [_ Hx] _ IH]; [reflexivity|].
    rewrite filter_cons_False; [exact IH|].
    intros Hc. apply Is_true_true, Qle_bool_iff in Hc.
    exact (Qlt_not_le _ _ Hx Hc). }
  rewrite Hf. unfold slice_to. cbn [map length].
  destruct (_ <? 0); apply firstn_nil.
Qed.

(** C10: when the selection is empty the scale tool neither checks nor
    writes its destination and returns without error, whether or not the
    destination exists.  Target 0 under the random strategy, and a
    threshold above every ratio under the tokens strategy, are two such
    runs. *)
Theorem C10_empty_selection_is_silent :
  (forall (R : Scale.RandomSource) w c args (g : Scale.rng) number,
     Scale.select w c args g = Ok ([], number) ->
     Scale.main w c args g = (Ok (), [])) /\
  (forall (R : Scale.RandomSource) w c args (g : Scale.rng) total_ds,
     Scale.dataset args <> [] ->
     Scale.load_datasets w c args (Scale.dataset args) = Ok total_ds ->
     Scale.number args = Some (S754_zero false) ->
     Scale.type_ args = Some "random" ->
     Scale.main w c args g = (Ok (), [])) /\
  (forall (R : Scale.RandomSource) w c args (g : Scale.rng) t sel,
     Scale.type_ args = Some "tokens" ->
     Scale.threshold args = Some t ->
     (forall ds, Forall (fun tup => (0 <= fst tup)%Q /\ (fst tup < t)%Q)
                   (Scale.token_to_data_tuples c ds)) ->
     Scale.select w c args g = Ok sel ->
     Scale.main w c args g = (Ok (), [])).
Proof.
  split; [|split].
  - intros R w c args g number Hsel. unfold Scale.main. rewrite Hsel. reflexivity.
  - intros R w c args g total_ds Hne Hld Hnum Hty.
    unfold Scale.main, Scale.select.
    destruct (Scale.dataset args) eqn:Hd; [contradiction|].
    rewrite Hld, Hnum. cbn. rewrite target_zero. cbn.
    destruct (Scale.shuffle total_ds g) as [sh g'].
    unfold Scale.dispatch, Scale.type_is. rewrite Hty. cbn.
    destruct (Z.ltb_spec (Z.of_nat (length sh)) 0); [lia|].
    change (Z.to_nat 0) with 0%nat. rewrite sample_none. reflexivity.
  - intros R w c args g t [scaled number] Hty Hth Hall Hsel.
    unfold Scale.main. rewrite Hsel.
    enough (scaled = []) as -> by reflexivity.
    unfold Scale.select in Hsel.
    destruct (Scale.dataset args); [discriminate|].
    destruct (Scale.load_datasets w c args _) as [total_ds|]; [|discriminate].
    destruct (Scale.number args) as [x|]; [|discriminate]. cbn in Hsel.
    destruct (Scale.target_number x (length total_ds)) as [k|]; [|discriminate].
    cbn in Hsel. destruct (Scale.shuffle total_ds g) as [sh g'].
    unfold Scale.dispatch, Scale.type_is in Hsel. rewrite Hty, Hth in Hsel.
    cbn in Hsel.
    destruct (Scale.scale_tokens c sh k (Some t) g').1 as [out|] eqn:Hout;
      [|discriminate].
    cbn in Hsel. injection Hsel as <- _.
    exact (tokens_all_excluded R c sh k t g' out (Hall sh) Hout).
Qed.

Lemma C10_empty_selection_is_silent_witness :
  @Scale.main Samples.in_order (Samples.world_of Samples.two_repos true)
    Samples.by_id_length Samples.scale_zero_args () = (Ok (), []).
Proof.
  apply (proj1 (proj2 C10_empty_selection_is_silent) Samples.in_order
           (Samples.world_of Samples.two_repos true) Samples.by_id_length
           Samples.scale_zero_args () Samples.two_repos);
    [discriminate|reflexivity|reflexivity|reflexivity].
Defined.

(** ** An existing destination *)

(** C5 as worded fails for the scale tool: with target 0 the destination
    exists and the run ends without any error. *)
Lemma C5_scale_existing_destination_no_error :
  Scale.select (H := Samples.in_order) (Samples.world_of Samples.two_repos true)
    Samples.by_id_length Samples.scale_zero_args () = Ok ([], 0) /\
  exists_ (Samples.world_of Samples.two_repos true)
    (Scale.fp Samples.scale_zero_args 0) = true /\
  (Scale.main (H := Samples.in_order) (Samples.world_of Samples.two_repos true)
     Samples.by_id_length Samples.scale_zero_args ()).1 <> Raise FileExistsError.
Proof. split; [reflexivity|]. split; [reflexivity|]. discriminate. Qed.

(** C5, as the code has it: no run of the filter or of the scale tool
    writes to a path that exists.  A run that reaches its write step (the
    filter after flagging; the scaler with a non-empty selection) and finds
    its destination raises [FileExistsError] after the existence check
    alone. *)
Theorem C5_no_overwrite :
  (forall w tokenizer args fp lines,
     In (DestWrite fp lines) (Filter.main w tokenizer args).2 ->
     exists_ w fp = false) /\
  (forall w tokenizer args sel,
     Filter.select w tokenizer args = Ok sel ->
     exists_ w (Filter.new_fp args) = true ->
     Filter.main w tokenizer args =
     (Raise FileExistsError, [DestExists (Filter.new_fp args)])) /\
  (forall (R : Scale.RandomSource) w c args (g : Scale.rng) fp lines,
     In (DestWrite fp lines) (Scale.main w c args g).2 ->
     exists_ w fp = false) /\
  (forall (R : Scale.RandomSource) w c args (g : Scale.rng) scaled_ds number,
     Scale.select w c args g = Ok (scaled_ds, number) ->
     scaled_ds <> [] ->
     exists_ w (Scale.fp args number) = true ->
     Scale.main w c args g =
     (Raise FileExistsError, [DestExists (Scale.fp args number)])).
Proof.
  split; [|split; [|split]].
  - intros w tokenizer args fp lines. unfold Filter.main.
    destruct (Filter.select w tokenizer args) as [[ds R]|e]; [|intros []].
    destruct (exists_ w (Filter.new_fp args)) eqn:Hex; cbn.
    + intros [H|[]]. discriminate.
    + intros [H|[H|[]]]; [discriminate|]. injection H as <- _. exact Hex.
  - intros w tokenizer args [ds R] Hsel Hex. unfold Filter.main.
    rewrite Hsel, Hex. reflexivity.
  - intros R w c args g fp lines. unfold Scale.main.
    destruct (Scale.select w c args g) as [[[|d ds] number]|e]; try intros [].
    destruct (exists_ w (Scale.fp args number)) eqn:Hex.
    + cbn [snd In]. intros [H|[]]. discriminate.
    + destruct (Scale.can_open_w w (Scale.fp args number)); cbn [snd In].
      * intros [H|[H|[]]]; [discriminate|]. injection H as <- _. exact Hex.
      * intros [H|[]]. discriminate.
  - intros R w c args g scaled_ds number Hsel Hne Hex. unfold Scale.main.
    rewrite Hsel, Hex. destruct scaled_ds; [contradiction|reflexivity].
Qed.

Lemma C5_no_overwrite_witness :
  Scale.fp Samples.scale_repo_args 3 = "data/repo_3.jsonl" /\
  Scale.main (H := Samples.in_order) (Samples.world_of Samples.two_repos true)
    Samples.by_id_length Samples.scale_repo_args ()
  = (Raise FileExistsError, [DestExists (Scale.fp Samples.scale_repo_args 3)]).
Proof.
  split; [reflexivity|].
  apply (proj2 (proj2 (proj2 C5_no_overwrite)) Samples.in_order
           (Samples.world_of Samples.two_repos true) Samples.by_id_length
           Samples.scale_repo_args ()
           [Samples.traj "django_1"; Samples.traj "django_2";
            Samples.traj "django_3"] 3);
    [reflexivity|discriminate|reflexivity].
Defined.

End DestinationFacts.

(* ===================================================================== *)
(** * Further properties of the stage pipeline *)
(* ===================================================================== *)

Module PipelineMore.
Import Pipeline.

(** One run from any experiment: it returns, appends [run_calls] to the
    trace, sets the five artifact attributes to what the distill
    collaborator returned and to the report path, and leaves the yaml file
    present if it was, or if stage two ran in full. *)
Lemma _run_pipeline_from cfg stage_idx e0 :
  exists e,
    _run_pipeline cfg stage_idx e0 = Ok e /\
    trace e = trace e0 ++ run_calls cfg stage_idx (stage_two_yaml_exists e0) /\
    stage_two_yaml_exists e =
      stage_two_yaml_exists e0 || negb (2 <? stage_idx) /\
    stage_one_output_dir e =
      Some (distill_paths cfg "stage_one" (1 <? stage_idx)).1 /\
    stage_one_instances_fp e =
      Some (distill_paths cfg "stage_one" (1 <? stage_idx)).2 /\
    stage_two_output_dir e =
      Some (distill_paths cfg "stage_two" (2 <? stage_idx)).1 /\
    stage_two_instances_fp e =
      Some (distill_paths cfg "stage_two" (2 <? stage_idx)).2 /\
    report_fp e =
      Some (path_join (distill_paths cfg "stage_two" (2 <? stage_idx)).1
              ["report_t" +:+ compare_patch_threshold cfg +:+ ".json"]).
Proof.
  unfold _run_pipeline, _run_generate, _run_distill_one, _run_distill_two,
    _run_eval, _run_postprocess, run_calls.
  destruct (distill_paths cfg "stage_one" (1 <? stage_idx)) as [d1 i1] eqn:E1.
  destruct (distill_paths cfg "stage_two" (2 <? stage_idx)) as [d2 i2] eqn:E2.
  destruct e0 as [a1 a2 a3 a4 a5 yaml tr].
  destruct (0 <? stage_idx), (1 <? stage_idx), (2 <? stage_idx),
    (3 <? stage_idx), (4 <? stage_idx), yaml;
    cbn; rewrite ?E1, ?E2; cbn; rewrite ?E1, ?E2; cbn;
    eexists; (split; [reflexivity|]); cbn;
    rewrite <- ?app_assoc; repeat split; reflexivity.
Qed.

(** Membership in the short call lists of [run_calls]. *)
Ltac in_calls :=
  cbn [In app] in *;
  repeat match goal with
         | H : _ \/ _ |- _ => destruct H
         | H : False |- _ => destruct H
         | H : @eq call _ _ |- _ => discriminate H
         | H : ex _ |- _ => destruct H
         end.

(** Finds a call in a list written out. *)
Ltac find_call :=
  cbn [In app]; repeat first [left; reflexivity | right].

Lemma run_calls_generate cfg S y :
  In generate_method (run_calls cfg S y) <-> S <= 0.
Proof.
  unfold run_calls.
  destruct (distill_paths cfg "stage_one" (1 <? S)) as [d1 i1].
  destruct (distill_paths cfg "stage_two" (2 <? S)) as [d2 i2].
  destruct (Z.ltb_spec 0 S); destruct ((2 <? S) || y), (3 <? S);
    (split; [intros; in_calls; lia|intros; try lia; find_call]).
Qed.

Lemma run_calls_eval_loop cfg S y :
  (exists a b, In (eval_loop a b) (run_calls cfg S y)) <-> S <= 3.
Proof.
  unfold run_calls.
  destruct (distill_paths cfg "stage_one" (1 <? S)) as [d1 i1].
  destruct (distill_paths cfg "stage_two" (2 <? S)) as [d2 i2].
  destruct (Z.ltb_spec 3 S); destruct ((2 <? S) || y), (0 <? S);
    (split; [intros; in_calls; lia
            |intros; try lia; exists i2, d2; find_call]).
Qed.

Lemma run_calls_scrape cfg S y :
  (exists a b, In (scrape_synthetic_prs a b) (run_calls cfg S y)) <->
  S <= 2 /\ y = false.
Proof.
  unfold run_calls.
  destruct (distill_paths cfg "stage_one" (1 <? S)) as [d1 i1].
  destruct (distill_paths cfg "stage_two" (2 <? S)) as [d2 i2].
  destruct (Z.ltb_spec 2 S), y; cbn [orb]; destruct (3 <? S), (0 <? S);
    (split; [intros; in_calls; (lia || (split; [lia|reflexivity]))
            |intros [? ?]; try lia; try discriminate;
             exists i1, d1; find_call]).
Qed.

Lemma run_calls_always cfg S y :
  In (distill_method "stage_one" (1 <? S)) (run_calls cfg S y) /\
  In (distill_method "stage_two" (2 <? S)) (run_calls cfg S y) /\
  In (format_and_save (distill_paths cfg "stage_one" (1 <? S)).1 None)
     (run_calls cfg S y) /\
  In (format_and_save (distill_paths cfg "stage_two" (2 <? S)).1
        (Some (path_join (distill_paths cfg "stage_two" (2 <? S)).1
                 ["report_t" +:+ compare_patch_threshold cfg +:+ ".json"])))
     (run_calls cfg S y).
Proof.
  unfold run_calls.
  destruct (distill_paths cfg "stage_one" (1 <? S)) as [d1 i1].
  destruct (distill_paths cfg "stage_two" (2 <? S)) as [d2 i2]. cbn [fst snd].
  destruct (0 <? S), ((2 <? S) || y), (3 <? S);
    (split; [find_call|split; [find_call|split; find_call]]).
Qed.

(** X1: which collaborators a run reaches.  [generate_method] is called
    exactly when the requested index is at most 0, [eval_loop] exactly when
    it is at most 3, the PR scraper exactly when it is at most 2 and
    [stage_two_instances.yaml] does not exist yet; the distill collaborator
    is called for both stages with [metadata_only = skip], and the
    formatter twice, first without and then with the report. *)
Theorem X1_collaborator_calls cfg (S : Z) (yaml : bool) :
  exists e,
    _run_pipeline cfg S (init yaml) = Ok e /\
    trace e = run_calls cfg S yaml /\
    (In generate_method (trace e) <-> S <= 0) /\
    ((exists a b, In (eval_loop a b) (trace e)) <-> S <= 3) /\
    ((exists a b, In (scrape_synthetic_prs a b) (trace e)) <->
     S <= 2 /\ yaml = false) /\
    In (distill_method "stage_one" (1 <? S)) (trace e) /\
    In (distill_method "stage_two" (2 <? S)) (trace e) /\
    In (format_and_save (distill_paths cfg "stage_one" (1 <? S)).1 None)
       (trace e) /\
    In (format_and_save (distill_paths cfg "stage_two" (2 <? S)).1 (report_fp e))
       (trace e).
Proof.
  destruct (_run_pipeline_from cfg S (init yaml))
    as (e & He & Htr & _ & _ & _ & _ & _ & Hrep).
  exists e. split; [exact He|]. cbn [trace init app] in Htr.
  split; [exact Htr|]. rewrite Htr, Hrep.
  split; [apply run_calls_generate|]. split; [apply run_calls_eval_loop|].
  split; [apply run_calls_scrape|]. apply run_calls_always.
Qed.



(** X4: what a stage method needs from the earlier ones.  [_run_eval]
    returns exactly when [stage_two_output_dir] is set and, in full mode,
    [stage_two_instances_fp] too; [_run_postprocess] returns exactly when
    both output directories and the report path are set; otherwise they
    stop on an [AttributeError], as on a fresh experiment. *)
Theorem X4_stage_prerequisites cfg (skip : bool) (e : Experiment) :
  is_ok (_run_eval cfg skip e) =
    bool_decide (is_Some (stage_two_output_dir e)) &&
    (skip || bool_decide (is_Some (stage_two_instances_fp e))) /\
  is_ok (_run_postprocess cfg skip e) =
    bool_decide (is_Some (stage_one_output_dir e)) &&
    bool_decide (is_Some (stage_two_output_dir e)) &&
    bool_decide (is_Some (report_fp e)) /\
  (is_ok (_run_eval cfg skip e) = false ->
   _run_eval cfg skip e = Raise AttributeError) /\
  (is_ok (_run_postprocess cfg skip e) = false ->
   _run_postprocess cfg skip e = Raise AttributeError) /\
  _run_eval cfg skip (init true) = Raise AttributeError /\
  _run_postprocess cfg skip (init true) = Raise AttributeError.
Proof.
  unfold _run_eval, _run_postprocess.
  destruct e as [a1 a2 a3 a4 a5 yaml tr].
  destruct a1, a3, a4, a5, skip; cbn; repeat split; congruence.
Qed.

Lemma X4_stage_prerequisites_witness :
  _run_eval Samples.cfg false (init false) = Raise AttributeError.
Proof.
  apply (proj1 (proj2 (proj2 (X4_stage_prerequisites Samples.cfg false
                                (init false))))).
  reflexivity.
Defined.

(** X5: [run] accepts exactly the six names of [stage_map].  Any other
    name raises [ValueError]; the sentinel [pipeline] runs the five stages
    in full mode. *)
Theorem X5_run_stage_names cfg (name : string) (yaml : bool) :
  (is_ok (run cfg name (init yaml)) = true <->
   In name ["pipeline"; "generate"; "distill_stage_one"; "distill_stage_two";
            "eval"; "postprocess"]) /\
  (is_ok (run cfg name (init yaml)) = false ->
   run cfg name (init yaml) = Raise ValueError) /\
  (exists e,
     run cfg "pipeline" (init yaml) = Ok e /\
     entered (trace e) =
       [(generate, false); (distill_stage_one, false);
        (distill_stage_two, false); (eval, false); (postprocess, false)]).
Proof.
  assert (Hok : forall idx, is_ok (_run_pipeline cfg idx (init yaml)) = true).
  { intros idx. destruct (_run_pipeline_from cfg idx (init yaml)) as (e & -> & _).
    reflexivity. }
  split; [|split].
  - unfold run, stage_map. cbn [stage_map_get In].
    repeat match goal with
           | |- context [String.eqb name ?k] =>
               destruct (String.eqb_spec name k) as [->|?];
               [split; [intros _; tauto|intros _; apply Hok]|]
           end.
    split; [discriminate|]. intros H. in_calls; congruence.
  - unfold run. destruct (stage_map_get stage_map name); [|reflexivity].
    rewrite Hok. discriminate.
  - exact (PipelineFacts._run_pipeline_trace cfg (-1) yaml).
Qed.

Lemma X5_run_stage_names_witness :
  run Samples.cfg "evaluate" (init false) = Raise ValueError.
Proof.
  apply (proj1 (proj2 (X5_run_stage_names Samples.cfg "evaluate" false))).
  reflexivity.
Defined.

End PipelineMore.

(* ===================================================================== *)
(** * Further properties of [analyze_diff] *)
(* ===================================================================== *)

Module DiffMore.
Import Filter.

Lemma startswith_head line (c : ascii) (p : string) :
  startswith line (String c p) = true -> exists l, line = String c l.
Proof.
  unfold startswith. destruct line as [|a l]; cbn; [discriminate|].
  destruct (ascii_dec c a) as [->|]; [eauto|discriminate].
Qed.

(** A line is counted at most once. *)
Lemma line_counted_once line :
  ((if is_added_content line then 1 else 0) +
   (if is_removed_content line then 1 else 0) +
   (if is_new_file_marker line then 1 else 0) <= 1)%nat.
Proof.
  unfold is_added_content, is_removed_content, is_new_file_marker.
  destruct (startswith line "+") eqn:Ha;
    destruct (startswith line "-") eqn:Hd;
    destruct (startswith line "new file mode") eqn:Hn;
    repeat match goal with
           | H : startswith _ (String _ _) = true |- _ =>
               apply startswith_head in H; destruct H as [? ?]
           end;
    try congruence; cbn [andb]; destruct (negb (is_metadata line)); lia.
Qed.

Lemma counted_once_sum lines :
  (length (List.filter is_added_content lines) +
   length (List.filter is_removed_content lines) +
   length (List.filter is_new_file_marker lines) <= length lines)%nat.
Proof.
  induction lines as [|line lines IH]; [reflexivity|].
  rewrite !DiffFacts.filter_length_cons. cbn [length].
  pose proof (line_counted_once line). lia.
Qed.

(** X6: every line of a patch is counted at most once, as an added line,
    a deleted line or a new-file marker, so the three counts together never
    exceed the number of lines; a patch of at most 40 lines therefore has
    an edit size of at most 40 and no visit of mode [long_edit] flags it. *)
Theorem X6_counts_bounded_by_lines (patch_text : string) :
  (added_lines (analyze_diff patch_text) +
   deleted_lines (analyze_diff patch_text) +
   new_files (analyze_diff patch_text)
   <= length (splitlines patch_text))%nat /\
  ((length (splitlines patch_text) <= PATCH_EDIT_MAX)%nat ->
   forall w folder_ inst_id,
     exists_ w (pred_path folder_ inst_id) = true ->
     read_pred w (pred_path folder_ inst_id) = ModelPatch (Some patch_text) ->
     ~ flags w folder_ inst_id).
Proof.
  rewrite DiffFacts.analyze_diff_spec. cbn [added_lines deleted_lines new_files].
  unfold count_lines.
  pose proof (counted_once_sum (splitlines patch_text)) as Hsum.
  split; [exact Hsum|].
  intros Hlen w folder_ inst_id Hex Hrd [H|[H|(q & H & Hq)]]; try congruence.
  rewrite Hrd in H. injection H as <-. cbn [edit_size] in Hq.
  rewrite DiffFacts.analyze_diff_spec in Hq.
  cbn [added_lines deleted_lines] in Hq. unfold count_lines in Hq. lia.
Qed.

Lemma X6_counts_bounded_by_lines_witness :
  ~ flags Samples.world_long_edit "traj" "d_1".
Proof.
  apply (proj2 (X6_counts_bounded_by_lines Samples.sample_diff));
    [vm_compute; lia|reflexivity|reflexivity].
Defined.

Lemma splitlines_from_break cur c s :
  is_linebreak c = true ->
  splitlines_from cur (String c s) =
  string_of_list_ascii (rev cur) ::
  match s with
  | String c' s'' =>
      if Ascii.eqb c CR && Ascii.eqb c' LF
      then splitlines_from [] s''
      else splitlines_from [] s
  | EmptyString => []
  end.
Proof. intros H. cbn [splitlines_from]. rewrite H. reflexivity. Qed.

Lemma splitlines_from_char cur c s :
  is_linebreak c = false ->
  splitlines_from cur (String c s) = splitlines_from (c :: cur) s.
Proof. intros H. cbn [splitlines_from]. rewrite H. reflexivity. Qed.

Lemma splitlines_from_lf cur b :
  splitlines_from cur (String LF b) =
  string_of_list_ascii (rev cur) :: splitlines_from [] b.
Proof. destruct b; reflexivity. Qed.

Lemma append_empty (s : string) : EmptyString +:+ s = s.
Proof. reflexivity. Qed.

Lemma append_String c (a s : string) : String c a +:+ s = String c (a +:+ s).
Proof. reflexivity. Qed.

(** One more line feed between two texts: the lines of the first, an empty
    line or none, the lines of the second. *)
Lemma splitlines_from_app_lf (n : nat) : forall a cur b,
  (String.length a <= n)%nat ->
  exists E,
    (E = [] \/ E = [EmptyString]) /\
    splitlines_from cur (a +:+ String LF b) =
    splitlines_from cur a ++ E ++ splitlines_from [] b.
Proof.
  induction n as [|n IH]; intros a cur b Hlen.
  - destruct a; [|cbn in Hlen; lia]. rewrite append_empty.
    rewrite splitlines_from_lf. destruct cur as [|c0 cur].
    + exists [EmptyString]. split; [auto|]. reflexivity.
    + exists []. split; [auto|]. reflexivity.
  - destruct a as [|c a'].
    { apply (IH EmptyString cur b). cbn. lia. }
    cbn [String.length] in Hlen. rewrite append_String.
    destruct (is_linebreak c) eqn:Hc.
    + rewrite !(splitlines_from_break cur c) by exact Hc.
      destruct a' as [|c' a''].
      * rewrite append_empty. change (Ascii.eqb LF LF) with true.
        destruct (Ascii.eqb c CR); cbn [andb].
        -- exists []. split; [auto|]. reflexivity.
        -- rewrite splitlines_from_lf. exists [EmptyString].
           split; [auto|]. reflexivity.
      * rewrite append_String.
        destruct (Ascii.eqb c CR && Ascii.eqb c' LF).
        -- destruct (IH a'' [] b) as (E & HE & ->);
             [cbn [String.length] in Hlen; lia|].
           exists E. split; [exact HE|reflexivity].
        -- destruct (IH (String c' a'') [] b) as (E & HE & Heq); [lia|].
           rewrite append_String in Heq. rewrite Heq.
           exists E. split; [exact HE|reflexivity].
    + rewrite !(splitlines_from_char cur c) by exact Hc. apply IH. lia.
Qed.

Lemma count_lines_app_lf (p : string -> bool) (a b : string) :
  p EmptyString = false ->
  count_lines p (a +:+ String LF b) = (count_lines p a + count_lines p b)%nat.
Proof.
  intros Hp. unfold count_lines, splitlines.
  destruct (splitlines_from_app_lf (String.length a) a [] b (le_n _))
    as (E & HE & ->).
  rewrite !List.filter_app, !length_app.
  destruct HE as [-> | ->]; cbn; rewrite ?Hp; cbn; lia.
Qed.

(** X7: the statistics add up over concatenation.  Analysing two patch
    texts joined by a line feed gives, for each of the three counts, the
    sum of the counts of the two texts. *)
Theorem X7_analyze_diff_additive (a b : string) :
  added_lines (analyze_diff (a +:+ String LF b)) =
    (added_lines (analyze_diff a) + added_lines (analyze_diff b))%nat /\
  deleted_lines (analyze_diff (a +:+ String LF b)) =
    (deleted_lines (analyze_diff a) + deleted_lines (analyze_diff b))%nat /\
  new_files (analyze_diff (a +:+ String LF b)) =
    (new_files (analyze_diff a) + new_files (analyze_diff b))%nat.
Proof.
  rewrite !DiffFacts.analyze_diff_spec.
  cbn [added_lines deleted_lines new_files].
  repeat split; apply count_lines_app_lf; reflexivity.
Qed.

End DiffMore.

(* ===================================================================== *)
(** * Further properties of the filter tool *)
(* ===================================================================== *)

Module FilterMore.
Import Filter.

(** ** Mode [long_edit] *)

(** X8: the ids that mode [long_edit] flags are exactly those named in the
    dataset for which at least one visit of a trajectory folder finds the
    artifact missing, unreadable or too long; an instance listed in several
    folders is flagged as soon as one of them flags it, and nothing outside
    the dataset is ever flagged. *)
Theorem X8_long_edit_flagged_set w args (dataset_ids remove_ids : gset string) :
  long_edit w args dataset_ids = Ok remove_ids ->
  forall x,
    x ∈ remove_ids <->
    x ∈ dataset_ids /\
    exists folder_ subdirs,
      folder_ ∈ folder args /\ listdir w folder_ = Ok subdirs /\
      x ∈ subdirs /\ flags w folder_ x.
Proof.
  intros Hrun x. unfold long_edit in Hrun.
  destruct (folder args) as [|f fs] eqn:Hf; [discriminate|].
  rewrite (FilterFacts.long_edit_folders_elem _ _ _ _ _ Hrun x). split.
  - intros [H|(f' & sd & H1 & H2 & H3 & H4 & H5)]; [inversion H|].
    split; [exact H4|]. exists f', sd. auto.
  - intros (H4 & f' & sd & H1 & H2 & H3 & H5). right. exists f', sd. auto.
Qed.

Lemma X8_long_edit_flagged_set_witness :
  exists remove_ids,
    long_edit Samples.world_long_edit Samples.long_edit_args
      Samples.long_edit_ids = Ok remove_ids /\
    "a_1" ∈ remove_ids.
Proof.
  destruct (FilterFacts.long_edit_folders_ok Samples.world_long_edit
              Samples.long_edit_ids ["traj"] ∅) as (R & HR).
  { intros f Hf. apply list_elem_of_singleton in Hf. subst f. reflexivity. }
  exists R. split; [exact HR|].
  apply (X8_long_edit_flagged_set Samples.world_long_edit
           Samples.long_edit_args Samples.long_edit_ids R HR "a_1").
  split.
  - unfold Samples.long_edit_ids.
    apply elem_of_list_to_set, list_elem_of_In. simpl. auto.
  - exists "traj", ["a_1"; "b_1"; "c_1"; "d_1"].
    split; [apply list_elem_of_singleton; reflexivity|].
    split; [reflexivity|]. split; [apply list_elem_of_here|].
    left. reflexivity.
Defined.

(** ** Mode [user_length] *)

(** X9: what decides the loop of line 139 is the first user message.  The
    loop stops on a [TypeError] exactly when the first message of role
    [user] does not contain the sentinel; otherwise, with the sentinel
    there or no user message at all, it ends with the sum unchanged. *)
Theorem X9_user_tokens_outcome (msgs : list Message) (n : nat) :
  (user_tokens msgs n = Raise TypeError <->
   exists pre m post,
     msgs = pre ++ m :: post /\
     (forall m', m' ∈ pre -> String.eqb (role m') "user" = false) /\
     counted m = true) /\
  (user_tokens msgs n <> Raise TypeError -> user_tokens msgs n = Ok n).
Proof.
  split.
  - split.
    + revert n. induction msgs as [|m msgs IH]; intros n; cbn [user_tokens].
      * discriminate.
      * destruct (String.eqb (role m) "user") eqn:Hr.
        -- destruct (contains TARGET_PREFIX (content m)) eqn:Hc; [discriminate|].
           intros _. exists [], m, msgs. split; [reflexivity|]. split.
           ++ intros m' Hm'. inversion Hm'.
           ++ unfold counted. rewrite Hr, Hc. reflexivity.
        -- intros H. destruct (IH n H) as (pre & m0 & post & -> & Hpre & Hm0).
           exists (m :: pre), m0, post. split; [reflexivity|]. split; [|exact Hm0].
           intros m' Hm'. apply elem_of_cons in Hm' as [->|Hm']; auto.
    + intros (pre & m & post & -> & Hpre & Hm).
      apply FilterFacts.user_tokens_counted; assumption.
  - intros Hne. destruct (FilterFacts.user_tokens_outcome msgs n); tauto.
Qed.

Lemma X9_user_tokens_outcome_witness :
  user_tokens [Samples.msg "system" "hello"; Samples.msg "assistant" "ls"] 7
  = Ok 7%nat.
Proof.
  apply (proj2 (X9_user_tokens_outcome _ 7%nat)). discriminate.
Defined.

(** X10: mode [user_length] never removes a trajectory.  Whatever the
    input, a run in this mode that gets to write its destination writes
    the loaded dataset whole and in order: the mode either raises or
    copies. *)
Theorem X10_user_length_copies w tokenizer args fp lines :
  filter_mode args = Some "user_length" ->
  In (DestWrite fp lines) (main w tokenizer args).2 ->
  fp = new_fp args /\ load_datasets w (dataset args) = Ok lines.
Proof.
  intros Hmode. unfold main, select. rewrite Hmode.
  destruct (dataset args) as [|d0 ds0] eqn:Hd; [intros []|].
  destruct (load_datasets w (d0 :: ds0)) as [ds|e]; [|intros []].
  unfold mbind, result_bind.
  change (String.eqb "user_length" "long_edit") with false.
  change (String.eqb "user_length" "user_length") with true. cbv iota.
  destruct (user_length ds ∅) as [R|e] eqn:HR; [|intros []].
  apply FilterFacts.user_length_flags_nothing in HR. subst R.
  destruct (length ds =? 0)%nat; [intros []|].
  rewrite ScaleFacts.filter_all
    by (apply Forall_forall; intros d _; apply not_elem_of_empty).
  destruct (exists_ w (new_fp args)); cbn [snd In].
  - intros [H|[]]. discriminate.
  - intros [H|[H|[]]]; [discriminate|]. injection H as <- <-. auto.
Qed.

Lemma X10_user_length_copies_witness :
  load_datasets (Samples.world_of [Samples.agent_only] false)
    (dataset Samples.user_length_args) = Ok [Samples.agent_only].
Proof.
  apply (X10_user_length_copies (Samples.world_of [Samples.agent_only] false)
           Samples.tok100 Samples.user_length_args
           (new_fp Samples.user_length_args) [Samples.agent_only]).
  - reflexivity.
  - right. left. reflexivity.
Defined.

(** ** [main] *)

(** X11: the mode and the folder option are looked at only once every
    dataset file has been read.  A file that cannot be read stops the run
    with its own error whatever the mode; with the files read, an unknown
    or missing mode raises [RuntimeError] and mode [long_edit] without a
    folder raises [ValueError]; in each case the destination is neither
    checked nor written. *)
Theorem X11_filter_configuration_errors w tokenizer args :
  dataset args <> [] ->
  (forall e,
     load_datasets w (dataset args) = Raise e ->
     main w tokenizer args = (Raise e, [])) /\
  (forall ds,
     load_datasets w (dataset args) = Ok ds ->
     (filter_mode args = None -> main w tokenizer args = (Raise RuntimeError, []))
     /\
     (forall mode,
        filter_mode args = Some mode ->
        mode <> "long_edit" -> mode <> "user_length" ->
        main w tokenizer args = (Raise RuntimeError, [])) /\
     (filter_mode args = Some "long_edit" -> folder args = [] ->
      main w tokenizer args = (Raise ValueError, []))).
Proof.
  intros Hne. unfold main, select.
  destruct (dataset args) as [|d0 ds0]; [contradiction|].
  split.
  - intros e ->. reflexivity.
  - intros ds ->. unfold mbind, result_bind. split; [|split].
    + intros ->. reflexivity.
    + intros mode -> H1 H2.
      destruct (String.eqb_spec mode "long_edit"); [contradiction|].
      destruct (String.eqb_spec mode "user_length"); [contradiction|].
      reflexivity.
    + intros -> Hf. unfold long_edit. rewrite Hf. reflexivity.
Qed.

Lemma X11_filter_configuration_errors_witness :
  main (Samples.world_of [Samples.traj9] false) Samples.tok100
    {| dataset := ["data/train.jsonl"]; folder := [];
       filter_mode := Some "long_edit" |} = (Raise ValueError, []).
Proof.
  apply (proj2 (X11_filter_configuration_errors
                  (Samples.world_of [Samples.traj9] false) Samples.tok100
                  {| dataset := ["data/train.jsonl"]; folder := [];
                     filter_mode := Some "long_edit" |}
                  ltac:(discriminate)) [Samples.traj9]);
    reflexivity.
Defined.

(** X12: an empty dataset stops the run.  When the dataset files hold no
    trajectory and the mode's own loop completes, the percentage of line
    153 divides by zero: the run raises [ZeroDivisionError] and writes no
    (empty) output. *)
Theorem X12_empty_dataset_raises w tokenizer args :
  dataset args <> [] ->
  load_datasets w (dataset args) = Ok [] ->
  (filter_mode args = Some "user_length" ->
   main w tokenizer args = (Raise ZeroDivisionError, [])) /\
  (filter_mode args = Some "long_edit" ->
   folder args <> [] ->
   (forall f, f ∈ folder args -> is_ok (listdir w f) = true) ->
   main w tokenizer args = (Raise ZeroDivisionError, [])).
Proof.
  intros Hne Hld. unfold main, select.
  destruct (dataset args) as [|d0 ds0]; [contradiction|]. rewrite Hld.
  unfold mbind, result_bind. split.
  - intros ->. reflexivity.
  - intros -> Hf Hok.
    change (String.eqb "long_edit" "long_edit") with true. cbv iota.
    unfold long_edit. destruct (folder args) as [|f fs] eqn:Hfs; [contradiction|].
    destruct (FilterFacts.long_edit_folders_ok w
                (list_to_set (map instance_id [])) (f :: fs) ∅ Hok) as (R & ->).
    reflexivity.
Qed.

Lemma X12_empty_dataset_raises_witness :
  main (Samples.world_of [] false) Samples.tok100 Samples.user_length_args
  = (Raise ZeroDivisionError, []).
Proof.
  apply (proj1 (X12_empty_dataset_raises (Samples.world_of [] false)
                  Samples.tok100 Samples.user_length_args
                  ltac:(discriminate) eq_refl)).
  reflexivity.
Defined.

(** X13: what a completed run of mode [long_edit] writes.  With the
    dataset read and not empty, the folders listed and the destination
    free, the run checks the destination and writes it once; the lines
    written are the dataset's trajectories, in their order, whose id no
    visit of any folder flags.  Trajectories sharing a flagged id are all
    dropped. *)
Theorem X13_long_edit_written w tokenizer args (ds : list Trajectory) :
  filter_mode args = Some "long_edit" ->
  dataset args <> [] ->
  load_datasets w (dataset args) = Ok ds ->
  ds <> [] ->
  folder args <> [] ->
  (forall f, f ∈ folder args -> is_ok (listdir w f) = true) ->
  exists_ w (new_fp args) = false ->
  exists kept,
    main w tokenizer args =
      (Ok (), [DestExists (new_fp args); DestWrite (new_fp args) kept]) /\
    sublist kept ds /\
    forall d,
      d ∈ kept <->
      d ∈ ds /\
      ~ exists f subdirs,
          f ∈ folder args /\ listdir w f = Ok subdirs /\
          instance_id d ∈ subdirs /\ flags w f (instance_id d).
Proof.
  intros Hmode Hne Hld Hds Hf Hok Hfree. unfold main, select.
  destruct (dataset args) as [|d0 ds0]; [contradiction|]. rewrite Hld, Hmode.
  unfold mbind, result_bind.
  change (String.eqb "long_edit" "long_edit") with true. cbv iota.
  assert (Hlen : (length ds =? 0)%nat = false)
    by (destruct ds; [contradiction|reflexivity]).
  rewrite Hlen. clear Hlen.
  set (ids := list_to_set (map instance_id ds) : gset string).
  assert (HR : exists R, long_edit w args ids = Ok R).
  { unfold long_edit. destruct (folder args) as [|f fs] eqn:Hfs; [contradiction|].
    exact (FilterFacts.long_edit_folders_ok w ids (f :: fs) ∅ Hok). }
  destruct HR as (R & HR). rewrite HR, Hfree.
  exists (filter (fun d => instance_id d ∉ R) ds).
  split; [reflexivity|]. split; [apply sublist_filter|].
  intros d. rewrite list_elem_of_filter.
  assert (Hchar : forall x,
            x ∈ R <->
            x ∈ ids /\
            exists f sd, f ∈ folder args /\ listdir w f = Ok sd /\
                         x ∈ sd /\ flags w f x).
  { intros x. unfold long_edit in HR.
    destruct (folder args) as [|f fs] eqn:Hfs; [contradiction|].
    rewrite (FilterFacts.long_edit_folders_elem _ _ _ _ _ HR x). split.
    - intros [H|(f' & sd & H1 & H2 & H3 & H4 & H5)]; [inversion H|].
      split; [exact H4|]. exists f', sd. auto.
    - intros (H4 & f' & sd & H1 & H2 & H3 & H5). right. exists f', sd. auto. }
  split.
  - intros [HnR Hd]. split; [exact Hd|]. intros Hfl. apply HnR, Hchar.
    split; [|exact Hfl]. unfold ids.
    apply elem_of_list_to_set, list_elem_of_In, in_map, list_elem_of_In, Hd.
  - intros [Hd Hnf]. split; [|exact Hd]. intros HinR.
    apply Hchar in HinR as [_ Hfl]. exact (Hnf Hfl).
Qed.

Lemma X13_long_edit_written_witness :
  exists kept,
    main (Samples.world_dataset_and_traj) Samples.tok100 Samples.long_edit_args
    = (Ok (), [DestExists (new_fp Samples.long_edit_args);
               DestWrite (new_fp Samples.long_edit_args) kept]) /\
    sublist kept Samples.five_instances.
Proof.
  destruct (X13_long_edit_written Samples.world_dataset_and_traj Samples.tok100
              Samples.long_edit_args Samples.five_instances)
    as (kept & Hmain & Hsub & _); try reflexivity; try discriminate.
  - intros f Hf. apply list_elem_of_singleton in Hf. subst f. reflexivity.
  - exists kept. split; assumption.
Defined.

(** ** The destination name *)

Lemma str_take_drop (n : nat) : forall s, str_take n s +:+ str_drop n s = s.
Proof.
  induction n as [|n IH]; intros [|c s]; try reflexivity.
  cbn [str_take str_drop]. rewrite DiffMore.append_String, IH. reflexivity.
Qed.

Lemma append_empty_r (s : string) : s +:+ EmptyString = s.
Proof.
  induction s as [|c s IH]; [reflexivity|].
  rewrite DiffMore.append_String, IH. reflexivity.
Qed.

Lemma length_append (a b : string) :
  String.length (a +:+ b) = (String.length a + String.length b)%nat.
Proof.
  induction a as [|c a IH]; [reflexivity|].
  rewrite DiffMore.append_String. cbn [String.length]. rewrite IH. reflexivity.
Qed.

(** [os.path.splitext] cuts its argument in two. *)
Lemma splitext_app (p : string) : (splitext p).1 +:+ (splitext p).2 = p.
Proof.
  unfold splitext. destruct (rfind "/" p <? rfind "." p).
  - destruct (all_char "." _); cbn [fst snd].
    + apply append_empty_r.
    + apply str_take_drop.
  - apply append_empty_r.
Qed.

(** X14: the destination of the filter is its first input path with
    [_filter_<mode>] inserted before the extension; it is longer than that
    path, so the run never takes its first input file for its
    destination. *)
Theorem X14_filter_destination_name args (mode : string) :
  filter_mode args = Some mode ->
  (exists front tail,
     hd EmptyString (dataset args) = front +:+ tail /\
     splitext (hd EmptyString (dataset args)) = (front, tail) /\
     new_fp args = front +:+ "_filter_" +:+ mode +:+ tail) /\
  String.length (new_fp args) =
    (String.length (hd EmptyString (dataset args)) + 8 + String.length mode)%nat
  /\ new_fp args <> hd EmptyString (dataset args).
Proof.
  intros Hmode. unfold new_fp. rewrite Hmode.
  change (default "None" (Some mode)) with mode.
  pose proof (splitext_app (hd EmptyString (dataset args))) as Happ.
  destruct (splitext (hd EmptyString (dataset args))) as [front tail].
  cbn [fst snd] in Happ.
  assert (Hlen : String.length (front +:+ "_filter_" +:+ mode +:+ tail) =
                 (String.length (hd EmptyString (dataset args)) + 8
                  + String.length mode)%nat).
  { rewrite <- Happ, !length_append. cbn [String.length]. lia. }
  split; [|split].
  - exists front, tail. auto.
  - exact Hlen.
  - intros Heq. rewrite Heq in Hlen. lia.
Qed.

Lemma X14_filter_destination_name_witness :
  new_fp Samples.long_edit_args = "data/train_filter_long_edit.jsonl" /\
  new_fp Samples.long_edit_args <> "data/train.jsonl".
Proof.
  split; [reflexivity|].
  apply (X14_filter_destination_name Samples.long_edit_args "long_edit").
  reflexivity.
Defined.

End FilterMore.

(* ===================================================================== *)
(** * Further properties of the scaler *)
(* ===================================================================== *)

Module ScaleMore.
Import Scale.

(** ** The repository key *)

Lemma drop_last_snoc (s : string) (c : ascii) :
  drop_last (s +:+ String c EmptyString) = s.
Proof.
  induction s as [|a s IH]; [reflexivity|].
  rewrite DiffMore.append_String. cbn [drop_last]. rewrite IH.
  destruct s; reflexivity.
Qed.

(** X15: the repository key of line 57 is the [instance_id] without its
    last character, whatever the id holds: splitting on [_] and joining
    again changes nothing.  Two ids that differ in their last character
    only share their key; the empty id has the empty key. *)
Theorem X15_repo_key :
  (forall data, repo_name data = drop_last (instance_id data)) /\
  (forall (r : string) (c1 c2 : ascii) (m1 m2 : list Message),
     repo_name {| instance_id := r +:+ String c1 EmptyString; messages := m1 |}
     = r /\
     repo_name {| instance_id := r +:+ String c2 EmptyString; messages := m2 |}
     = r) /\
  (forall m, repo_name {| instance_id := EmptyString; messages := m |}
             = EmptyString).
Proof.
  split; [exact ScaleFacts.repo_name_drop_last|]. split.
  - intros r c1 c2 m1 m2.
    rewrite !ScaleFacts.repo_name_drop_last. cbn [instance_id].
    rewrite !drop_last_snoc. auto.
  - intros m. reflexivity.
Qed.

(** ** The repo strategy *)

Lemma bucket_of_others ds k k' :
  k' <> k ->
  bucket (filter (fun d => ~ drop_last (instance_id d) = k) ds) k' =
  bucket ds k'.
Proof.
  intros Hne. unfold bucket. induction ds as [|d ds IH]; [reflexivity|].
  destruct (decide (drop_last (instance_id d) = k)) as [Hk|Hk].
  - rewrite (filter_cons_False (fun d => ~ drop_last (instance_id d) = k))
      by tauto.
    rewrite (filter_cons_False (fun d => drop_last (instance_id d) = k') d ds)
      by congruence.
    exact IH.
  - rewrite (filter_cons_True (fun d => ~ drop_last (instance_id d) = k))
      by exact Hk.
    destruct (decide (drop_last (instance_id d) = k')) as [Hk'|Hk'].
    + rewrite !(filter_cons_True (fun d => drop_last (instance_id d) = k')) by exact Hk'.
      rewrite IH. reflexivity.
    + rewrite !(filter_cons_False (fun d => drop_last (instance_id d) = k')) by exact Hk'.
      exact IH.
Qed.

Lemma flat_map_ext_on {A B} (f g : A -> list B) (l : list A) :
  (forall x, In x l -> f x = g x) -> flat_map f l = flat_map g l.
Proof.
  induction l as [|x l IH]; intros H; [reflexivity|]. cbn [flat_map].
  rewrite (H x (or_introl eq_refl)), IH; [reflexivity|].
  intros y Hy. apply H. right. exact Hy.
Qed.

(** The buckets of all the keys make up the dataset. *)
Lemma all_buckets ks : forall ds,
  NoDup ks ->
  (forall d, d ∈ ds -> drop_last (instance_id d) ∈ ks) ->
  Permutation (flat_map (bucket ds) ks) ds.
Proof.
  induction ks as [|k ks IH]; intros ds Hnd Hall.
  - destruct ds as [|d ds]; [reflexivity|].
    specialize (Hall d (list_elem_of_here _ _)). inversion Hall.
  - apply NoDup_cons in Hnd as [Hk Hnd]. cbn [flat_map].
    set (ds' := filter (fun d => ~ drop_last (instance_id d) = k) ds).
    assert (Hext : flat_map (bucket ds) ks = flat_map (bucket ds') ks).
    { apply flat_map_ext_on. intros k' Hk'. symmetry.
      apply bucket_of_others. intros ->. apply Hk, list_elem_of_In, Hk'. }
    rewrite Hext, (IH ds' Hnd).
    + apply (filter_app_complement (fun d => drop_last (instance_id d) = k)).
    + intros d Hd. apply list_elem_of_filter in Hd as [Hne Hd].
      specialize (Hall d Hd). apply elem_of_cons in Hall as [?|?]; tauto.
Qed.

(** X16: the repo strategy neither invents nor repeats a trajectory and
    never returns fewer than asked when it can.  Its output is a part of
    the dataset (with the buckets left unvisited it makes up a permutation
    of it), holds at least [min(n, |dataset|)] trajectories, and is the
    whole dataset, reordered, once [n] is at least the dataset's size. *)
Theorem X16_scale_repos_size (R : RandomSource) (dataset : list Trajectory)
    (n : Z) (g : rng) :
  exists out unvisited,
    (scale_repos dataset n g).1 = Ok out /\
    Permutation (out ++ unvisited) dataset /\
    Z.min n (Z.of_nat (length dataset)) <= Z.of_nat (length out) /\
    (Z.of_nat (length dataset) <= n -> Permutation out dataset).
Proof.
  unfold scale_repos.
  pose proof (ScaleFacts.group_by_repo_dict dataset) as Hm.
  pose proof (shuffle_perm _ (map fst (group_by_repo dataset)) g) as Hp.
  destruct (shuffle (map fst (group_by_repo dataset)) g) as [order g'].
  cbn [fst] in *.
  destruct (ScaleFacts.add_repos_prefix _ _ n Hm order []) as
    (visited & rest & -> & Hrun & Hstop & _).
  { intros k Hk. rewrite <- Hp. exact Hk. }
  cbn [app] in Hrun, Hstop.
  assert (Hall : Permutation (flat_map (bucket dataset) (visited ++ rest)) dataset).
  { apply all_buckets.
    - rewrite Hp. apply Hm.
    - intros d Hd. rewrite Hp. apply (ScaleFacts.dict_of_keys _ _ _ Hm). eauto. }
  rewrite flat_map_app in Hall.
  pose proof (Permutation_length Hall) as Hlen. rewrite length_app in Hlen.
  exists (flat_map (bucket dataset) visited), (flat_map (bucket dataset) rest).
  split; [exact Hrun|]. split; [exact Hall|].
  destruct rest as [|k rest].
  - cbn [flat_map length] in *. rewrite app_nil_r in Hall. split; [lia|].
    intros _. exact Hall.
  - assert (Hn : n <= Z.of_nat (length (flat_map (bucket dataset) visited)))
      by (apply Hstop; discriminate).
    split; [lia|]. intros Hbig.
    assert (Hnil : flat_map (bucket dataset) (k :: rest) = []).
    { apply length_zero_iff_nil. lia. }
    rewrite Hnil, app_nil_r in Hall. exact Hall.
Qed.

(** ** A target below zero *)

Lemma below_zero_negative n :
  float_lt_int n 0 = true ->
  n = S754_infinity true \/ exists m e, n = S754_finite true m e.
Proof.
  unfold float_lt_int, compare_float_int.
  destruct n as [s|[]| |[] m e]; try discriminate; eauto.
  unfold cond_Zopp. destruct (Z.leb_spec 0 e).
  - assert (0 < 2 ^ e) by (apply Z.pow_pos_nonneg; lia).
    destruct (Z.compare_spec (Z.pos m * 2 ^ e) 0); try discriminate; nia.
  - destruct (Z.compare_spec (Z.pos m) (0 * 2 ^ (- e))); try discriminate; lia.
Qed.

(** X17: a target below zero is not clamped.  [number] is then the
    truncated target, at most 0 ([int] fails on minus infinity); with a
    negative [number] the random strategy raises [ValueError], and with
    [number] at most 0 the repo strategy selects nothing. *)
Theorem X17_negative_target :
  (forall (n : float) (total : nat),
     float_lt_int n 0 = true ->
     target_number n total = int_of_float n /\
     forall k, int_of_float n = Ok k -> k <= 0) /\
  (forall (R : RandomSource) c args total_ds (number : Z) (g : rng),
     number < 0 -> type_ args = Some "random" ->
     dispatch c args total_ds number g = Raise ValueError) /\
  (forall (R : RandomSource) dataset (number : Z) (g : rng),
     number <= 0 -> (scale_repos dataset number g).1 = Ok []).
Proof.
  split; [|split].
  - intros n total Hlt.
    destruct (below_zero_negative n Hlt) as [->|(m & e & ->)].
    + split; [reflexivity|]. discriminate.
    + unfold target_number, float_gt_int.
      rewrite !(ScaleFacts.negative_below true m e) by (lia || reflexivity).
      split; [reflexivity|]. cbn [int_of_float cond_Zopp]. intros k [= <-].
      pose proof (proj2 (Z.shiftl_nonneg (Z.pos m) e)). lia.
  - intros R c args total_ds number g Hneg Hty.
    unfold dispatch, type_is. rewrite Hty.
    change (String.eqb "random" "repo") with false.
    change (String.eqb "random" "tokens") with false.
    change (String.eqb "random" "random") with true. cbv iota.
    destruct (Z.ltb_spec number 0); [reflexivity|lia].
  - intros R dataset number g Hle. unfold scale_repos.
    pose proof (ScaleFacts.group_by_repo_dict dataset) as Hm.
    pose proof (shuffle_perm _ (map fst (group_by_repo dataset)) g) as Hp.
    destruct (shuffle (map fst (group_by_repo dataset)) g) as [order g'].
    cbn [fst] in *.
    destruct (ScaleFacts.add_repos_prefix _ _ number Hm order []) as
      (visited & rest & -> & Hrun & _ & Hpre).
    { intros k Hk. rewrite <- Hp. exact Hk. }
    destruct visited as [|k visited]; [exact Hrun|].
    specialize (Hpre [] k visited eq_refl). cbn in Hpre. lia.
Qed.

Lemma X17_negative_target_witness :
  target_number (float_lit (-5) (-1)) 10 = Ok (-2) /\
  (@scale_repos Samples.in_order Samples.two_repos (-2) ()).1 = Ok [].
Proof.
  split.
  - rewrite (proj1 (proj1 X17_negative_target (float_lit (-5) (-1)) 10%nat
                      eq_refl)).
    reflexivity.
  - apply (proj2 (proj2 X17_negative_target) Samples.in_order). lia.
Defined.

(** ** The strategies through [main] *)

Lemma bind_Ok {A B} (a : A) (f : A -> result B) : (Ok a ≫= f) = f a.
Proof. reflexivity. Qed.

(** What [select] returns comes from [dispatch] on a shuffled corpus. *)
Lemma select_inv (R : RandomSource) w c args (g : rng) out number :
  select w c args g = Ok (out, number) ->
  exists total_ds n k sh g',
    load_datasets w c args (dataset args) = Ok total_ds /\
    Scale.number args = Some n /\
    target_number n (length total_ds) = Ok k /\
    Permutation sh total_ds /\
    dispatch c args sh k g' = Ok (out, number).
Proof.
  unfold select. destruct (dataset args) as [|d0 ds0]; [discriminate|].
  destruct (load_datasets w c args (d0 :: ds0)) as [total_ds|]; [|discriminate].
  unfold mbind at 1, result_bind at 1.
  destruct (Scale.number args) as [n|]; [|discriminate].
  destruct (target_number n (length total_ds)) as [k|] eqn:Ht; [|discriminate].
  unfold mbind at 1, result_bind at 1.
  pose proof (shuffle_perm _ total_ds g) as Hp.
  destruct (shuffle total_ds g) as [sh g']. cbn [fst] in Hp.
  intros H. exists total_ds, n, k, sh, g'. auto 10.
Qed.

(** X18: the count in the default file name is the size of the output.
    Whatever the strategy, when the selection succeeds the [number] used in
    [<type>_<number>.jsonl] is the number of trajectories selected, not the
    target asked for. *)
Theorem X18_name_counts_output (R : RandomSource) w c args (g : rng)
    (out : list Trajectory) (number : Z) :
  select w c args g = Ok (out, number) ->
  number = Z.of_nat (length out) /\
  (output_file args = None ->
   fp args number =
   path_join (dirname (hd EmptyString (dataset args)))
     [default "None" (type_ args) +:+ "_"
      +:+ str_of_int (Z.of_nat (length out)) +:+ ".jsonl"]).
Proof.
  intros Hsel.
  assert (Hnum : number = Z.of_nat (length out)).
  { destruct (select_inv R w c args g out number Hsel)
      as (total_ds & n & k & sh & g' & _ & _ & _ & _ & Hd).
    unfold dispatch in Hd.
    destruct (type_is args "repo").
    { destruct (scale_repos sh k g').1; [|discriminate].
      injection Hd as <- <-. reflexivity. }
    destruct (type_is args "tokens").
    { destruct (scale_tokens c sh k (threshold args) g').1; [|discriminate].
      injection Hd as <- <-. reflexivity. }
    destruct (type_is args "random"); [|discriminate].
    destruct (Z.ltb_spec k 0); [discriminate|].
    destruct (Z.ltb_spec (Z.of_nat (length sh)) k); [discriminate|].
    cbn [orb] in Hd. injection Hd as <- <-.
    destruct (sample_perm _ sh (Z.to_nat k) g') as [Hlen _]; lia. }
  split; [exact Hnum|]. intros Ho. unfold fp. rewrite Ho, Hnum. reflexivity.
Qed.

Lemma X18_name_counts_output_witness :
  fp Samples.scale_repo_args 3 = "data/repo_3.jsonl".
Proof.
  rewrite (proj2 (X18_name_counts_output Samples.in_order
                    (Samples.world_of Samples.two_repos true)
                    Samples.by_id_length Samples.scale_repo_args ()
                    [Samples.traj "django_1"; Samples.traj "django_2";
                     Samples.traj "django_3"] 3 eq_refl) eq_refl).
  reflexivity.
Defined.

(** X19: the random strategy draws exactly [number] trajectories from the
    corpus.  With the files read and a target resolved to [k] between 0
    and the corpus size, the selection has [k] elements and is a part of
    the corpus as loaded: with some rest it makes up a permutation of
    it. *)
Theorem X19_random_selection (R : RandomSource) w c args (g : rng)
    (total_ds : list Trajectory) (n : float) (k : Z) :
  dataset args <> [] ->
  load_datasets w c args (dataset args) = Ok total_ds ->
  number args = Some n ->
  target_number n (length total_ds) = Ok k ->
  0 <= k <= Z.of_nat (length total_ds) ->
  type_ args = Some "random" ->
  exists out rest,
    select w c args g = Ok (out, k) /\
    Z.of_nat (length out) = k /\
    Permutation (out ++ rest) total_ds.
Proof.
  intros Hne Hld Hnum Htarget Hk Hty. unfold select.
  destruct (dataset args) as [|d0 ds0]; [contradiction|].
  rewrite Hld, Hnum. unfold mbind at 1, result_bind at 1.
  rewrite Htarget. unfold mbind at 1, result_bind at 1.
  pose proof (shuffle_perm _ total_ds g) as Hp.
  destruct (shuffle total_ds g) as [sh g']. cbn [fst] in Hp.
  pose proof (Permutation_length Hp) as Hlen.
  unfold dispatch, type_is. rewrite Hty.
  change (String.eqb "random" "repo") with false.
  change (String.eqb "random" "tokens") with false.
  change (String.eqb "random" "random") with true. cbv iota.
  destruct (Z.ltb_spec k 0); [lia|].
  destruct (Z.ltb_spec (Z.of_nat (length sh)) k); [lia|]. cbn [orb].
  destruct (sample_perm _ sh (Z.to_nat k) g') as [Hsl (rest & Hrest)]; [lia|].
  exists (sample sh (Z.to_nat k) g').1, rest.
  split; [reflexivity|]. split; [lia|]. rewrite Hrest. exact Hp.
Qed.

Lemma X19_random_selection_witness :
  exists out rest,
    select (H := Samples.in_order) (Samples.world_of Samples.two_repos true)
      Samples.by_id_length Samples.scale_random_args () = Ok (out, 2) /\
    Z.of_nat (length out) = 2 /\
    Permutation (out ++ rest) Samples.two_repos.
Proof.
  apply (X19_random_selection Samples.in_order
           (Samples.world_of Samples.two_repos true) Samples.by_id_length
           Samples.scale_random_args () Samples.two_repos (float_lit 1 (-1)) 2);
    try reflexivity; [discriminate|simpl; lia].
Defined.

(** X20: an unknown strategy is found out last.  The dataset files are
    read and the target resolved first: a missing [-n] raises [TypeError]
    and a target that [int] rejects raises its own error, whatever the
    strategy; only then does an unknown or missing [-t] raise
    [RuntimeError].  The destination is never touched. *)
Theorem X20_scale_configuration_errors (R : RandomSource) w c args (g : rng)
    (total_ds : list Trajectory) :
  dataset args <> [] ->
  load_datasets w c args (dataset args) = Ok total_ds ->
  (number args = None -> main w c args g = (Raise TypeError, [])) /\
  (forall n e,
     number args = Some n ->
     target_number n (length total_ds) = Raise e ->
     main w c args g = (Raise e, [])) /\
  (forall n k,
     number args = Some n ->
     target_number n (length total_ds) = Ok k ->
     type_is args "repo" = false -> type_is args "tokens" = false ->
     type_is args "random" = false ->
     main w c args g = (Raise RuntimeError, [])).
Proof.
  intros Hne Hld. unfold main, select.
  destruct (dataset args) as [|d0 ds0]; [contradiction|].
  rewrite Hld, bind_Ok. split; [|split].
  - intros ->. reflexivity.
  - intros n e -> Ht. rewrite Ht. reflexivity.
  - intros n k -> Ht H1 H2 H3. rewrite Ht, bind_Ok.
    destruct (shuffle total_ds g) as [sh g'].
    unfold dispatch. rewrite H1, H2, H3. reflexivity.
Qed.

Lemma X20_scale_configuration_errors_witness :
  main (H := Samples.in_order) (Samples.world_of Samples.two_repos true)
    Samples.by_id_length
    {| dataset := ["data/train.jsonl"]; type_ := Some "tokens";
       number := Some S754_nan; threshold := None; output_file := None;
       no_filter := false |} () = (Raise ValueError, []).
Proof.
  apply (proj1 (proj2 (X20_scale_configuration_errors Samples.in_order
           (Samples.world_of Samples.two_repos true) Samples.by_id_length
           {| dataset := ["data/train.jsonl"]; type_ := Some "tokens";
              number := Some S754_nan; threshold := None; output_file := None;
              no_filter := false |} () Samples.two_repos
           ltac:(discriminate) eq_refl)) S754_nan ValueError);
    reflexivity.
Defined.

(** ** The tokens strategy *)

Lemma sorted_app_order (l1 l2 : list (Q * Trajectory)) :
  StronglySorted ratio_ge (l1 ++ l2) ->
  forall a b, In a l1 -> In b l2 -> ratio_ge a b.
Proof.
  induction l1 as [|x l1 IH]; intros Hs a b Ha Hb; [destruct Ha|].
  cbn [app] in Hs. apply StronglySorted_inv in Hs as [Hs Hx].
  destruct Ha as [->|Ha]; [|exact (IH Hs a b Ha Hb)].
  rewrite List.Forall_forall in Hx. apply Hx, in_or_app. right. exact Hb.
Qed.

Lemma index_below {A} (l : list A) (i : Z) :
  i < - Z.of_nat (length l) -> index l i = Raise IndexError.
Proof.
  intros Hi. unfold index.
  destruct (Z.ltb_spec i 0); [|lia].
  destruct (Z.leb_spec 0 (Z.of_nat (length l) + i)); [lia|reflexivity].
Qed.

(** What the tokens strategy returns without a threshold, for any target:
    a slice of the sorted records, once both entries that line 91 formats
    are there. *)
Lemma scale_tokens_unfiltered (R : RandomSource) c dataset n th (g : rng) :
  not_threshold th = true ->
  exists sorted,
    Permutation sorted (token_to_data_tuples c dataset) /\
    StronglySorted ratio_ge sorted /\
    (scale_tokens c dataset n th g).1 =
    (_ ← index sorted 0;
     _ ← index sorted (Z.min n (Z.of_nat (length sorted)) - 1);
     Ok (slice_to (map snd sorted) (Z.min n (Z.of_nat (length sorted))))).
Proof.
  intros Hth. unfold scale_tokens.
  pose proof (shuffle_perm _ (token_to_data_tuples c dataset) g) as Hp.
  destruct (shuffle (token_to_data_tuples c dataset) g) as [sh g'].
  cbn [fst] in *.
  pose proof (ScaleFacts.sorted_desc_perm sh) as Hsp.
  exists (sorted_desc sh).
  split; [rewrite Hsp; exact Hp|]. split; [apply ScaleFacts.sorted_desc_sorted|].
  rewrite (Permutation_length Hsp).
  destruct th as [t|]; [|reflexivity]. rewrite Hth. reflexivity.
Qed.

(** X21: without a threshold the tokens strategy keeps the [n] records of
    highest ratio.  For a target [n >= 0] and at least one record, the
    output is the trajectories of the first [min(n, records)] entries of
    the records sorted by descending ratio, and no record left out has a
    higher ratio than a record kept.  A threshold of exactly 0 is taken
    for no threshold. *)
Theorem X21_tokens_top_n (R : RandomSource) (c : Collaborators)
    (dataset : list Trajectory) (n : Z) (th : option Q) (g : rng) :
  0 <= n ->
  token_to_data_tuples c dataset <> [] ->
  th = None \/ (exists t, th = Some t /\ (t == 0)%Q) ->
  exists sorted,
    Permutation sorted (token_to_data_tuples c dataset) /\
    StronglySorted ratio_ge sorted /\
    (scale_tokens c dataset n th g).1 =
      Ok (map snd (firstn (Z.to_nat n) sorted)) /\
    length (firstn (Z.to_nat n) sorted) =
      Nat.min (Z.to_nat n) (length (token_to_data_tuples c dataset)) /\
    forall kept left_out,
      In kept (firstn (Z.to_nat n) sorted) ->
      In left_out (skipn (Z.to_nat n) sorted) ->
      (fst left_out <= fst kept)%Q.
Proof.
  intros Hn Hne Hth.
  assert (Hnt : not_threshold th = true).
  { destruct Hth as [->|(t & -> & Ht)]; [reflexivity|].
    apply Qeq_bool_iff. exact Ht. }
  destruct (scale_tokens_unfiltered R c dataset n th g Hnt)
    as (sorted & Hperm & Hsorted & Hrun).
  exists sorted. split; [exact Hperm|]. split; [exact Hsorted|].
  pose proof (Permutation_length Hperm) as Hlen.
  assert (Hpos : (0 < length sorted)%nat).
  { destruct sorted; [|cbn; lia]. apply Permutation_nil in Hperm. contradiction. }
  split; [|split].
  - rewrite Hrun.
    destruct (ScaleFacts.index_in_range sorted 0) as (x0 & ->); [lia|].
    destruct (ScaleFacts.index_in_range sorted
                (Z.min n (Z.of_nat (length sorted)) - 1)) as (x1 & ->); [lia|].
    rewrite !bind_Ok.
    rewrite ScaleFacts.slice_to_capped by (rewrite ?length_map; lia).
    rewrite firstn_map. reflexivity.
  - rewrite length_firstn, Hlen. reflexivity.
  - intros kept left_out Hk Hl.
    rewrite <- (firstn_skipn (Z.to_nat n) sorted) in Hsorted.
    exact (sorted_app_order _ _ Hsorted kept left_out Hk Hl).
Qed.

Lemma X21_tokens_top_n_witness :
  exists sorted : list (Q * Trajectory),
    StronglySorted ratio_ge sorted /\
    (@scale_tokens Samples.in_order Samples.by_id_length
       [Samples.traj "django_12"; Samples.traj "a_1"; Samples.traj "flask_12345"]
       2 None ()).1 = Ok (map snd (firstn 2 sorted)).
Proof.
  destruct (X21_tokens_top_n Samples.in_order Samples.by_id_length
    [Samples.traj "django_12"; Samples.traj "a_1"; Samples.traj "flask_12345"]
    2 None ()) as (sorted & _ & Hsorted & Hrun & _).
  - lia.
  - discriminate.
  - left. reflexivity.
  - exists sorted. split; [exact Hsorted|exact Hrun].
Defined.

(** X22: the tokens strategy cannot run on nothing.  When the truncation
    collaborator returns no record, the range that line 91 formats for the
    log reads entry 0 of an empty list: [scale_tokens] raises
    [IndexError], for every target and threshold. *)
Theorem X22_tokens_no_record (R : RandomSource) (c : Collaborators)
    (dataset : list Trajectory) (n : Z) (th : option Q) (g : rng) :
  token_to_data_tuples c dataset = [] ->
  (scale_tokens c dataset n th g).1 = Raise IndexError.
Proof.
  intros Hnil. unfold scale_tokens.
  pose proof (shuffle_perm _ (token_to_data_tuples c dataset) g) as Hp.
  destruct (shuffle (token_to_data_tuples c dataset) g) as [sh g'].
  cbn [fst] in *. rewrite Hnil in Hp.
  apply Permutation_sym, Permutation_nil in Hp. subst sh.
  reflexivity.
Qed.

Lemma X22_tokens_no_record_witness :
  (@scale_tokens Samples.in_order Samples.by_id_length [] 3 (Some (9 # 10)) ()).1
  = Raise IndexError.
Proof.
  apply (X22_tokens_no_record Samples.in_order Samples.by_id_length). reflexivity.
Defined.

(** X23: a negative target under the tokens strategy does not select
    nothing.  Without a threshold and with [records] records, a target
    [-records < n < 0] drops the [|n|] records of lowest ratio and returns
    the other [records + n]; a target [n <= -records] raises
    [IndexError]. *)
Theorem X23_tokens_negative_target (R : RandomSource) (c : Collaborators)
    (dataset : list Trajectory) (n : Z) (g : rng) :
  n < 0 ->
  token_to_data_tuples c dataset <> [] ->
  exists sorted,
    Permutation sorted (token_to_data_tuples c dataset) /\
    StronglySorted ratio_ge sorted /\
    (- Z.of_nat (length sorted) < n ->
     (scale_tokens c dataset n None g).1 =
       Ok (map snd (firstn (Z.to_nat (Z.of_nat (length sorted) + n)) sorted)) /\
     Z.of_nat (length (firstn (Z.to_nat (Z.of_nat (length sorted) + n)) sorted))
     = Z.of_nat (length sorted) + n) /\
    (n <= - Z.of_nat (length sorted) ->
     (scale_tokens c dataset n None g).1 = Raise IndexError).
Proof.
  intros Hn Hne.
  destruct (scale_tokens_unfiltered R c dataset n None g eq_refl)
    as (sorted & Hperm & Hsorted & Hrun).
  exists sorted. split; [exact Hperm|]. split; [exact Hsorted|].
  assert (Hpos : (0 < length sorted)%nat).
  { destruct sorted; [|cbn; lia]. apply Permutation_nil in Hperm. contradiction. }
  rewrite Hrun. rewrite Z.min_l by lia.
  destruct (ScaleFacts.index_in_range sorted 0) as (x0 & ->); [lia|].
  rewrite bind_Ok. split.
  - intros Hin.
    destruct (ScaleFacts.index_in_range sorted (n - 1)) as (x1 & ->); [lia|].
    rewrite bind_Ok. unfold slice_to.
    destruct (Z.ltb_spec n 0); [|lia].
    rewrite length_map, firstn_map. split; [reflexivity|].
    rewrite length_firstn. lia.
  - intros Hout. rewrite index_below by lia. reflexivity.
Qed.

Lemma X23_tokens_negative_target_witness :
  exists sorted : list (Q * Trajectory),
    (@scale_tokens Samples.in_order Samples.by_id_length
       [Samples.traj "django_12"; Samples.traj "a_1"; Samples.traj "flask_12345"]
       (-5) None ()).1 = Raise IndexError /\
    length sorted = 3%nat.
Proof.
  destruct (X23_tokens_negative_target Samples.in_order Samples.by_id_length
    [Samples.traj "django_12"; Samples.traj "a_1"; Samples.traj "flask_12345"]
    (-5) ()) as (sorted & Hperm & _ & _ & Hout).
  - lia.
  - discriminate.
  - pose proof (Permutation_length Hperm) as Hlen. cbn in Hlen.
    exists sorted. split; [apply Hout; lia|exact Hlen].
Defined.

(** ** Loading *)

(** X24: how the corpus is put together.  When every dataset file can be
    read, the corpus is the concatenation of the files in the order given,
    nothing being deduplicated; each file goes through the length filter
    on its own before it is appended, except under [-nf] and under the
    tokens strategy, where the files are taken as they are. *)
Theorem X24_corpus_concatenation w c args (fps : list string)
    (content : string -> list Trajectory) :
  (forall fp, In fp fps -> read_jsonl w fp = Ok (content fp)) ->
  load_datasets w c args fps =
    Ok (flat_map
          (fun fp =>
             if negb (no_filter args) && negb (type_is args "tokens")
             then filter_messages c (content fp) else content fp) fps) /\
  (no_filter args = true \/ type_ args = Some "tokens" ->
   load_datasets w c args fps = Ok (flat_map content fps)).
Proof.
  intros Hread.
  assert (Hgen : load_datasets w c args fps =
    Ok (flat_map
          (fun fp =>
             if negb (no_filter args) && negb (type_is args "tokens")
             then filter_messages c (content fp) else content fp) fps)).
  { induction fps as [|fp fps IH]; [reflexivity|]. cbn [load_datasets flat_map].
    rewrite (Hread fp (or_introl eq_refl)), bind_Ok, IH, bind_Ok; [reflexivity|].
    intros fp' Hfp'. apply Hread. right. exact Hfp'. }
  split; [exact Hgen|]. intros Hoff. rewrite Hgen. f_equal.
  apply flat_map_ext_on. intros fp _.
  destruct Hoff as [-> | Hty]; [reflexivity|].
  unfold type_is. rewrite Hty. cbn. rewrite andb_false_r. reflexivity.
Qed.

Lemma X24_corpus_concatenation_witness :
  load_datasets (Samples.world_of Samples.two_repos true) Samples.by_id_length
    Samples.scale_repo_args ["data/train.jsonl"; "data/train.jsonl"]
  = Ok (Samples.two_repos ++ Samples.two_repos).
Proof.
  rewrite (proj2 (X24_corpus_concatenation
             (Samples.world_of Samples.two_repos true) Samples.by_id_length
             Samples.scale_repo_args ["data/train.jsonl"; "data/train.jsonl"]
             (fun _ => Samples.two_repos)
             ltac:(intros fp [<-|[<-|[]]]; reflexivity))
           (or_introl eq_refl)).
  reflexivity.
Defined.

End ScaleMore.
